(** * A student-records CRUD service: schema layer, persistence gateway
      and request handlers

    Shallow embedding of [models.py], [crud.py], [better_app.py] and the
    handlers of [app.py].

    - A decoded JSON request or response object is a [gmap string json].
    - A Python attribute that holds [None] or a [str] is an
      [option string].
    - The table [student] is a finite map from the primary key
      [matric_number] to the remaining columns; the columns declared
      [str] are NOT NULL, the column declared [str | None] is nullable.
    - A [Session] is threaded through the gateway functions by a state and
      exception monad, one fresh session per request as [get_session]
      provides it. [add] and [delete] queue an instance, [commit] flushes
      the queue in one transaction (INSERT for a new instance, UPDATE of the
      row an instance was loaded from, DELETE) and rolls back when a
      constraint fails, [refresh] reloads an instance from its row. *)

From Stdlib Require Import ZArith.
From stdpp Require Import gmap strings list fin_maps.

Local Open Scope Z_scope.
Set Warnings "-register-all".

(** ** Values *)

(** A decoded JSON value. *)
Inductive json :=
| JNull
| JBool (b : bool)
| JNum (n : Z)
| JStr (s : string)
| JArr (l : list json)
| JObj (l : list (string * json)).

(** A Python value of type [str | None]. *)
Abbreviation pyval := (option string).

Definition json_of_pyval (v : pyval) : json :=
  match v with
  | None => JNull
  | Some s => JStr s
  end.

(** ** Exceptions and results *)

Inductive exn :=
| IntegrityError          (* a NOT NULL or PRIMARY KEY constraint failed *)
| StaleDataError          (* UPDATE or DELETE matched no row *)
| InvalidRequestError     (* refresh or delete of an instance with no row *)
| ValueError              (* the object has no such field *)
| ResponseValidationError (* the returned object does not fit response_model *)
| HTTPException (status_code : Z) (detail : string).

Inductive result (A : Type) :=
| Ok (a : A)
| Raise (e : exn).
Arguments Ok {A} a.
Arguments Raise {A} e.

(** ** Schema layer ([models.py]) *)

(** Validation of one field of a request body: [None] is a validation error. *)
Definition validate_str (v : option json) : option string :=
  match v with
  | Some (JStr s) => Some s
  | _ => None                       (* missing, or not a string *)
  end.

(** A field declared [str | None = None]; the outer [None] is a validation error. *)
Definition validate_optional_str (v : option json) : option pyval :=
  match v with
  | None => Some None               (* not sent: the default *)
  | Some JNull => Some None
  | Some (JStr s) => Some (Some s)
  | Some _ => None
  end.

(** The table model [Student]: after [setattr] any attribute may hold
    [None]. [sa_identity] is the primary key under which the instance was
    loaded from the table, [None] for an instance not yet persisted. *)
Module Student.
Record t := mk {
  matric_number : pyval;
  first_name : pyval;
  last_name : pyval;
  email : pyval;
  password : pyval;
  sa_identity : option string
}.

Definition model_fields : list string :=
  ["matric_number"; "first_name"; "last_name"; "email"; "password"].
End Student.

Module StudentCreate.
Record t := mk {
  matric_number : string;
  first_name : string;
  last_name : string;
  email : pyval;
  password : string
}.

Definition model_fields : list string :=
  ["matric_number"; "first_name"; "last_name"; "email"; "password"].

(** Keys of the body that are not declared are ignored. *)
Definition model_validate (body : gmap string json) : option t :=
  m ← validate_str (body !! "matric_number");
  f ← validate_str (body !! "first_name");
  l ← validate_str (body !! "last_name");
  e ← validate_optional_str (body !! "email");
  p ← validate_str (body !! "password");
  Some (mk m f l e p).
End StudentCreate.

Module StudentRead.
Record t := mk {
  matric_number : string;
  first_name : string;
  last_name : string;
  email : pyval
}.

Definition model_fields : list string :=
  ["matric_number"; "first_name"; "last_name"; "email"].

(** Validation from the attributes of a [Student]. *)
Definition model_validate (o : Student.t) : option t :=
  m ← Student.matric_number o;
  f ← Student.first_name o;
  l ← Student.last_name o;
  Some (mk m f l (Student.email o)).

Definition model_dump (r : t) : gmap string json :=
  <["matric_number" := JStr (matric_number r)]>
    (<["first_name" := JStr (first_name r)]>
      (<["last_name" := JStr (last_name r)]>
        (<["email" := json_of_pyval (email r)]> ∅))).
End StudentRead.

Module StudentUpdate.
Record t := mk {
  first_name : pyval;
  last_name : pyval;
  email : pyval;
  password : pyval;
  model_fields_set : gset string     (* the fields the caller sent *)
}.

Definition model_fields : list string :=
  ["first_name"; "last_name"; "email"; "password"].

Definition model_validate (body : gmap string json) : option t :=
  f ← validate_optional_str (body !! "first_name");
  l ← validate_optional_str (body !! "last_name");
  e ← validate_optional_str (body !! "email");
  p ← validate_optional_str (body !! "password");
  Some (mk f l e p (filter (λ k, k ∈ model_fields) (dom body))).

(** [model_dump(exclude_unset=...)]: a dict in field order. *)
Definition model_dump (exclude_unset : bool) (m : t) : list (string * pyval) :=
  filter (λ kv, exclude_unset = false ∨ kv.1 ∈ model_fields_set m)
    [("first_name", first_name m); ("last_name", last_name m);
     ("email", email m); ("password", password m)].
End StudentUpdate.

(** [Student.model_validate(student)] for a [StudentCreate]. *)
Definition Student_model_validate (student : StudentCreate.t) : Student.t :=
  Student.mk (Some (StudentCreate.matric_number student))
             (Some (StudentCreate.first_name student))
             (Some (StudentCreate.last_name student))
             (StudentCreate.email student)
             (Some (StudentCreate.password student))
             None.

(** [getattr(o, key)] on a [Student]; [None] is an AttributeError. *)
Definition getattr (o : Student.t) (key : string) : option pyval :=
  if decide (key = "matric_number") then Some (Student.matric_number o)
  else if decide (key = "first_name") then Some (Student.first_name o)
  else if decide (key = "last_name") then Some (Student.last_name o)
  else if decide (key = "email") then Some (Student.email o)
  else if decide (key = "password") then Some (Student.password o)
  else None.

(** [setattr(o, key, value)] on a [Student]: no validation on assignment. *)
Definition setattr (o : Student.t) (key : string) (value : pyval) : result Student.t :=
  let '(Student.mk m f l e p i) := o in
  if decide (key = "matric_number") then Ok (Student.mk value f l e p i)
  else if decide (key = "first_name") then Ok (Student.mk m value l e p i)
  else if decide (key = "last_name") then Ok (Student.mk m f value e p i)
  else if decide (key = "email") then Ok (Student.mk m f l value p i)
  else if decide (key = "password") then Ok (Student.mk m f l e value i)
  else Raise ValueError.

(** ** The table and the session *)

(** A row of the table [student] without its primary key. *)
Module Row.
Record t := mk {
  first_name : string;
  last_name : string;
  email : pyval;
  password : string
}.
End Row.

(** The instance that a SELECT builds from the row stored under [k]. *)
Definition of_row (k : string) (r : Row.t) : Student.t :=
  Student.mk (Some k) (Some (Row.first_name r)) (Some (Row.last_name r))
             (Row.email r) (Some (Row.password r)) (Some k).

(** The column values an INSERT or UPDATE writes for an instance; [None] when
    a NOT NULL column would receive NULL. *)
Definition to_row (o : Student.t) : option (string * Row.t) :=
  m ← Student.matric_number o;
  f ← Student.first_name o;
  l ← Student.last_name o;
  p ← Student.password o;
  Some (m, Row.mk f l (Student.email o) p).

Module Session.
Record t := mk {
  database : gmap string Row.t;     (* the committed table *)
  added : list Student.t;           (* instances given to [add], not yet flushed *)
  deleted : list Student.t          (* instances given to [delete], not yet flushed *)
}.

(** [Session(engine)] *)
Definition open (db : gmap string Row.t) : t := mk db [] [].
End Session.

(** Computations in a session that return a value or raise. *)
Definition M (A : Type) : Type := Session.t → result A * Session.t.

#[global] Instance M_ret : MRet M := λ A a s, (Ok a, s).
#[global] Instance M_bind : MBind M := λ A B f m s,
  match m s with
  | (Ok a, s') => f a s'
  | (Raise e, s') => (Raise e, s')
  end.

Definition raise {A} (e : exn) : M A := λ s, (Raise e, s).

Definition lift {A} (r : result A) : M A := λ s, (r, s).

(** Flushing one added instance: INSERT when it is new, UPDATE of the row it
    was loaded from otherwise. *)
Definition flush_add (db : gmap string Row.t) (o : Student.t)
  : result (gmap string Row.t) :=
  match to_row o with
  | None => Raise IntegrityError                 (* NOT NULL constraint failed *)
  | Some (pk, row) =>
      match Student.sa_identity o with
      | None =>
          match db !! pk with
          | Some _ => Raise IntegrityError       (* PRIMARY KEY constraint failed *)
          | None => Ok (<[pk := row]> db)
          end
      | Some k =>
          match db !! k with
          | None => Raise StaleDataError
          | Some _ =>
              match delete k db !! pk with
              | Some _ => Raise IntegrityError   (* PRIMARY KEY constraint failed *)
              | None => Ok (<[pk := row]> (delete k db))
              end
          end
      end
  end.

Definition flush_delete (db : gmap string Row.t) (o : Student.t)
  : result (gmap string Row.t) :=
  match Student.sa_identity o with
  | None => Raise InvalidRequestError
  | Some k =>
      match db !! k with
      | None => Raise StaleDataError
      | Some _ => Ok (delete k db)
      end
  end.

Fixpoint flush_all (f : gmap string Row.t → Student.t → result (gmap string Row.t))
  (db : gmap string Row.t) (l : list Student.t) : result (gmap string Row.t) :=
  match l with
  | [] => Ok db
  | o :: l =>
      match f db o with
      | Ok db' => flush_all f db' l
      | Raise e => Raise e
      end
  end.

Definition session_add (o : Student.t) : M unit := λ s,
  (Ok tt, Session.mk (Session.database s) (Session.added s ++ [o]) (Session.deleted s)).

Definition session_delete (o : Student.t) : M unit := λ s,
  match Student.sa_identity o with
  | None => (Raise InvalidRequestError, s)       (* the instance is not persisted *)
  | Some _ =>
      (Ok tt, Session.mk (Session.database s) (Session.added s) (Session.deleted s ++ [o]))
  end.

(** [session.commit()]: the pending work is flushed in one transaction; when a
    statement fails the transaction is rolled back and the error raised. *)
Definition session_commit : M unit := λ s,
  let db := Session.database s in
  match flush_all flush_add db (Session.added s) with
  | Raise e => (Raise e, Session.mk db [] [])
  | Ok db1 =>
      match flush_all flush_delete db1 (Session.deleted s) with
      | Raise e => (Raise e, Session.mk db [] [])
      | Ok db2 => (Ok tt, Session.mk db2 [] [])
      end
  end.

(** [session.get(Student, k)] *)
Definition session_get (k : string) : M (option Student.t) := λ s,
  (Ok (of_row k <$> Session.database s !! k), s).

(** [session.refresh(o)]: reload the attributes from the row of [o]. *)
Definition session_refresh (o : Student.t) : M Student.t := λ s,
  match Student.matric_number o with
  | None => (Raise InvalidRequestError, s)
  | Some k =>
      match Session.database s !! k with
      | None => (Raise InvalidRequestError, s)
      | Some r => (Ok (of_row k r), s)
      end
  end.

(** [session.exec(select(Student)).all()] *)
Definition session_select_all : M (list Student.t) := λ s,
  (Ok (map (λ kr, of_row kr.1 kr.2) (map_to_list (Session.database s))), s).

(** [with Session(engine) as session: ...]: the block runs in a fresh session;
    what it did not commit is lost when the session closes. *)
Definition with_Session {A} (block : M A) (db : gmap string Row.t)
  : result A * gmap string Row.t :=
  let '(r, s) := block (Session.open db) in (r, Session.database s).

(** ** Persistence gateway ([crud.py]) *)

(** What a Python function without a return annotation may hand back here. *)
Inductive pyobj :=
| PyNone
| PyStr (s : string)
| PyStudent (o : Student.t).

(** [bool(v)], as [if not v] tests it. *)
Definition truthy (v : pyobj) : bool :=
  match v with
  | PyNone => false
  | PyStr s => negb (bool_decide (s = ""))
  | PyStudent _ => true
  end.

(** [for key, value in items: setattr(o, key, value)] *)
Fixpoint setattr_items (o : Student.t) (items : list (string * pyval))
  : result Student.t :=
  match items with
  | [] => Ok o
  | (key, value) :: items =>
      match setattr o key value with
      | Ok o' => setattr_items o' items
      | Raise e => Raise e
      end
  end.

Module crud.

Definition create_students (student : StudentCreate.t) : M Student.t :=
  let db_student := Student_model_validate student in
  session_add db_student;;
  session_commit;;
  db_student ← session_refresh db_student;
  mret db_student.

Definition get_students : M (list Student.t) :=
  session_select_all.

Definition get_student_by_matric_number (matric_number : string)
  : M (option Student.t) :=
  session_get matric_number.

Definition update_student (matric_number : string)
  (student_info_to_update : StudentUpdate.t) : M (option Student.t) :=
  db_student ← session_get matric_number;
  match db_student with
  | None => mret None
  | Some db_student =>
      let info_to_update := StudentUpdate.model_dump true student_info_to_update in
      db_student ← lift (setattr_items db_student info_to_update);
      session_add db_student;;
      session_commit;;
      db_student ← session_refresh db_student;
      mret (Some db_student)
  end.

Definition delete_student (matric_number : string) : M pyobj :=
  student ← session_get matric_number;
  match student with
  | None => mret PyNone
  | Some student =>
      session_delete student;;
      session_commit;;
      mret (PyStr "ok")
  end.

End crud.

(** ** Request handlers ([better_app.py], [app.py]) *)

Inductive content :=
| JsonObject (o : gmap string json)
| JsonArray (l : list (gmap string json)).

(** What the client receives. *)
Inductive response :=
| Response (status_code : Z) (body : content)
| RequestValidationError          (* status 422: the body does not fit the schema *)
| Unhandled (e : exn).            (* an exception no handler catches: status 500 *)

Definition status (r : response) : Z :=
  match r with
  | Response status_code _ => status_code
  | RequestValidationError => 422
  | Unhandled _ => 500
  end.

Definition is_client_error (r : response) : bool :=
  bool_decide (400 ≤ status r < 500).

(** [response_model=StudentRead] *)
Definition response_StudentRead (o : Student.t) : result content :=
  match StudentRead.model_validate o with
  | Some r => Ok (JsonObject (StudentRead.model_dump r))
  | None => Raise ResponseValidationError
  end.

Fixpoint mapM_result {A B} (f : A → result B) (l : list A) : result (list B) :=
  match l with
  | [] => Ok []
  | a :: l =>
      match f a with
      | Ok b =>
          match mapM_result f l with
          | Ok bs => Ok (b :: bs)
          | Raise e => Raise e
          end
      | Raise e => Raise e
      end
  end.

(** [response_model=list[StudentRead]] *)
Definition response_list_StudentRead (l : list Student.t) : result content :=
  match
    mapM_result (λ o, match StudentRead.model_validate o with
                      | Some r => Ok (StudentRead.model_dump r)
                      | None => Raise ResponseValidationError
                      end) l
  with
  | Ok objs => Ok (JsonArray objs)
  | Raise e => Raise e
  end.

(** No response_model: the returned dict is the body. *)
Definition response_dict (d : gmap string json) : result content :=
  Ok (JsonObject d).

(** A path operation: the endpoint runs in the session that [get_session]
    opens for this request; its return value is serialised, an [HTTPException]
    becomes the response it describes, any other exception is not handled. *)
Definition path_operation {A} (serialise : A → result content) (endpoint : M A)
  (db : gmap string Row.t) : response * gmap string Row.t :=
  let '(r, db') := with_Session endpoint db in
  (match r with
   | Ok a =>
       match serialise a with
       | Ok c => Response 200 c
       | Raise e => Unhandled e
       end
   | Raise (HTTPException status_code detail) =>
       Response status_code (JsonObject {["detail" := JStr detail]})
   | Raise e => Unhandled e
   end, db').

(** A path operation with a request body declared of a schema class. *)
Definition with_body {B} (validate : gmap string json → option B)
  (op : B → gmap string Row.t → response * gmap string Row.t)
  (body : gmap string json) (db : gmap string Row.t)
  : response * gmap string Row.t :=
  match validate body with
  | None => (RequestValidationError, db)
  | Some b => op b db
  end.

Module better_app.

Definition create_student (student : StudentCreate.t) : M Student.t :=
  crud.create_students student.

Definition read_students : M (list Student.t) :=
  crud.get_students.

Definition read_student (matric_number : string) : M Student.t :=
  student ← crud.get_student_by_matric_number matric_number;
  match student with
  | None => raise (HTTPException 400 "Student not found")
  | Some student => mret student
  end.

Definition update_student (matric_number : string) (student : StudentUpdate.t)
  : M Student.t :=
  db_student ← crud.update_student matric_number student;
  match db_student with
  | None => raise (HTTPException 404 "Student not found")
  | Some db_student => mret db_student
  end.

Definition delete_student (matric_number : string) : M (gmap string json) :=
  student ← crud.delete_student matric_number;
  if negb (truthy student)
  then raise (HTTPException 404 "Student not found")
  else mret {["ok" := JBool true]}.

(** The routes. *)
Definition POST_student :=
  with_body StudentCreate.model_validate
    (λ student, path_operation response_StudentRead (create_student student)).

Definition GET_students :=
  path_operation response_list_StudentRead read_students.

Definition GET_student (matric_number : string) :=
  path_operation response_StudentRead (read_student matric_number).

Definition PATCH_student (matric_number : string) :=
  with_body StudentUpdate.model_validate
    (λ student, path_operation response_StudentRead (update_student matric_number student)).

Definition DELETE_student (matric_number : string) :=
  path_operation response_dict (delete_student matric_number).

End better_app.

(** The handlers of [app.py] open their session themselves,
    [with Session(engine) as session:], and inline the gateway code. *)
Module app.

Definition create_student (student : StudentCreate.t) : M Student.t :=
  let db_student := Student_model_validate student in
  session_add db_student;;
  session_commit;;
  db_student ← session_refresh db_student;
  mret db_student.

Definition read_students : M (list Student.t) :=
  results ← session_select_all;
  mret results.

Definition read_student (matric_number : string) : M Student.t :=
  student ← session_get matric_number;
  match student with
  | None => raise (HTTPException 400 "Student not found")
  | Some student => mret student
  end.

Definition update_student (matric_number : string) (student : StudentUpdate.t)
  : M Student.t :=
  db_student ← session_get matric_number;
  match db_student with
  | None => raise (HTTPException 404 "Student not found")
  | Some db_student =>
      let student_data := StudentUpdate.model_dump true student in
      db_student ← lift (setattr_items db_student student_data);
      session_add db_student;;
      session_commit;;
      db_student ← session_refresh db_student;
      mret db_student
  end.

Definition delete_student (matric_number : string) : M (gmap string json) :=
  student ← session_get matric_number;
  match student with
  | None => raise (HTTPException 404 "Student not found")
  | Some student =>
      session_delete student;;
      session_commit;;
      mret {["ok" := JBool true]}
  end.

Definition POST_student :=
  with_body StudentCreate.model_validate
    (λ student, path_operation response_StudentRead (create_student student)).

Definition PATCH_student (matric_number : string) :=
  with_body StudentUpdate.model_validate
    (λ student, path_operation response_StudentRead (update_student matric_number student)).

End app.

(** ** Observations used in the statements *)

(** Does the key occur in a JSON value, at any depth? *)
Fixpoint json_has_key (key : string) (j : json) : bool :=
  match j with
  | JArr l => existsb (json_has_key key) l
  | JObj l =>
      existsb (λ kv, let '(k, v) := kv in bool_decide (k = key) || json_has_key key v) l
  | _ => false
  end.

Definition object_has_key (key : string) (o : gmap string json) : bool :=
  bool_decide (is_Some (o !! key))
  || existsb (λ kv, json_has_key key kv.2) (map_to_list o).

Definition content_has_key (key : string) (c : content) : bool :=
  match c with
  | JsonObject o => object_has_key key o
  | JsonArray l => existsb (object_has_key key) l
  end.

(** A sequence of PATCH requests, each with its path parameter and body. *)
Fixpoint PATCH_all (requests : list (string * gmap string json))
  (db : gmap string Row.t) : gmap string Row.t :=
  match requests with
  | [] => db
  | (matric_number, body) :: requests =>
      PATCH_all requests (better_app.PATCH_student matric_number body db).2
  end.

(** The row a creation view is stored as, and the read view it is answered with. *)
Definition row_of_create (student : StudentCreate.t) : Row.t :=
  Row.mk (StudentCreate.first_name student) (StudentCreate.last_name student)
         (StudentCreate.email student) (StudentCreate.password student).

Definition read_of_create (student : StudentCreate.t) : StudentRead.t :=
  StudentRead.mk (StudentCreate.matric_number student)
                 (StudentCreate.first_name student)
                 (StudentCreate.last_name student)
                 (StudentCreate.email student).

(** The responses of the four routes declared with a [StudentRead] response
    model, for a given table. *)
Inductive student_response (db : gmap string Row.t) : response → Prop :=
| response_of_create body :
    student_response db (better_app.POST_student body db).1
| response_of_list :
    student_response db (better_app.GET_students db).1
| response_of_get matric_number :
    student_response db (better_app.GET_student matric_number db).1
| response_of_update matric_number body :
    student_response db (better_app.PATCH_student matric_number body db).1.

(** [getattr(P, key)] on an update view; [None] is an AttributeError. *)
Definition getattr_update (P : StudentUpdate.t) (key : string) : option pyval :=
  if decide (key = "first_name") then Some (StudentUpdate.first_name P)
  else if decide (key = "last_name") then Some (StudentUpdate.last_name P)
  else if decide (key = "email") then Some (StudentUpdate.email P)
  else if decide (key = "password") then Some (StudentUpdate.password P)
  else None.

(** The read view of the row stored under [k]. *)
Definition read_of_row (k : string) (r : Row.t) : StudentRead.t :=
  StudentRead.mk k (Row.first_name r) (Row.last_name r) (Row.email r).

(** The fields a creation view requires, and the columns that are NOT NULL
    among those an update view can assign. *)
Definition required_fields : list string :=
  ["matric_number"; "first_name"; "last_name"; "password"].

Definition not_null_update_fields : list string :=
  ["first_name"; "last_name"; "password"].

(** ** Sample data, from the tests *)

Definition adebola : Row.t :=
  Row.mk "Adebola" "Odufuwa" None "password".

Definition one_student : gmap string Row.t :=
  {["21cg029882" := adebola]}.

Definition adebola_create : StudentCreate.t :=
  StudentCreate.mk "21cg029882" "Adebola" "Odufuwa" (Some "adeboladuf@gmail.com") "someone".

Definition adebola_json : gmap string json :=
  <["password" := JStr "someone"]>
    (<["matric_number" := JStr "21cg029882"]>
      (<["first_name" := JStr "Adebola"]>
        (<["last_name" := JStr "Odufuwa"]>
          {["email" := JStr "adeboladuf@gmail.com"]}))).

Definition oluwaferanmi : Row.t :=
  Row.mk "Oluwaferanmi" "Odufuwa" (Some "adeboladuf@gmail.com") "password".

Definition two_students : gmap string Row.t :=
  <["21cg029883" := oluwaferanmi]> one_student.

Definition email_patch : StudentUpdate.t :=
  StudentUpdate.mk None None (Some "adeboladuf@gmail.com") None {["email"]}.

Definition null_first_name : StudentUpdate.t :=
  StudentUpdate.mk None None None None {["first_name"]}.

Definition null_email : StudentUpdate.t :=
  StudentUpdate.mk None None None None {["email"]}.

(** * Properties *)

(** Membership in a list written out: one case per element. *)
Ltac elem_of_literal H :=
  repeat (apply elem_of_cons in H as [H|H]; [try subst|]);
  try (by apply elem_of_nil in H).

(** ** Attributes *)

Lemma setattr_Ok (o : Student.t) (key : string) (v : pyval) :
  key ∈ Student.model_fields → ∃ o', setattr o key v = Ok o'.
Proof.
  intros Hkey. destruct o as [m f l e p i]. unfold setattr.
  repeat case_decide; eauto.
  exfalso. unfold Student.model_fields in *. by elem_of_literal Hkey.
Qed.

Lemma getattr_setattr (o o' : Student.t) (key key' : string) (v : pyval) :
  setattr o key v = Ok o' →
  getattr o' key' = if decide (key' = key) then Some v else getattr o key'.
Proof.
  destruct o as [m f l e p i]. unfold setattr, getattr.
  intros H. repeat case_decide; simplify_eq; try done.
Qed.

Lemma setattr_sa_identity (o o' : Student.t) (key : string) (v : pyval) :
  setattr o key v = Ok o' → Student.sa_identity o' = Student.sa_identity o.
Proof.
  destruct o as [m f l e p i]. unfold setattr.
  intros H. repeat case_decide; simplify_eq; done.
Qed.

(** The loop over the items of a dict with distinct, declared keys assigns
    every item and nothing else. *)
Lemma setattr_items_spec (items : list (string * pyval)) :
  ∀ o : Student.t,
    Forall (λ kv, kv.1 ∈ Student.model_fields) items →
    NoDup items.*1 →
    ∃ o', setattr_items o items = Ok o'
          ∧ Student.sa_identity o' = Student.sa_identity o
          ∧ (∀ key v, (key, v) ∈ items → getattr o' key = Some v)
          ∧ (∀ key, key ∉ items.*1 → getattr o' key = getattr o key).
Proof.
  induction items as [|[k v] items IH]; intros o Hdecl Hnodup.
  - exists o. split; [done|]. split; [done|]. split; [|done].
    intros key v H. by apply elem_of_nil in H.
  - apply Forall_cons in Hdecl as [Hk Hdecl].
    apply NoDup_cons in Hnodup as [Hfresh Hnodup].
    destruct (setattr_Ok o k v Hk) as [o1 Ho1].
    destruct (IH o1 Hdecl Hnodup) as (o' & Hrun & Hid & Hin & Hout).
    exists o'. simpl. rewrite Ho1. split; [done|]. split; [|split].
    + rewrite Hid. by eapply setattr_sa_identity.
    + intros key w Hmem. apply elem_of_cons in Hmem as [Heq|Hmem].
      * simplify_eq. rewrite (Hout k Hfresh).
        rewrite (getattr_setattr _ _ _ k _ Ho1). by rewrite decide_True.
      * by apply Hin.
    + intros key Hnot. simpl in Hnot. apply not_elem_of_cons in Hnot as [Hne Hnot].
      rewrite (Hout key Hnot). rewrite (getattr_setattr _ _ _ key _ Ho1).
      by rewrite decide_False.
Qed.

(** ** The update view *)

Lemma model_dump_keys (b : bool) (P : StudentUpdate.t) (kv : string * pyval) :
  kv ∈ StudentUpdate.model_dump b P → kv.1 ∈ StudentUpdate.model_fields.
Proof.
  unfold StudentUpdate.model_dump. intros [_ H]%list_elem_of_filter.
  unfold StudentUpdate.model_fields.
  elem_of_literal H; simpl; repeat constructor.
Qed.

Lemma model_dump_NoDup (b : bool) (P : StudentUpdate.t) :
  NoDup (StudentUpdate.model_dump b P).*1.
Proof.
  unfold StudentUpdate.model_dump.
  apply (sublist_NoDup _ StudentUpdate.model_fields).
  - unfold StudentUpdate.model_fields.
    repeat (apply NoDup_cons; split; [intros H; by elem_of_literal H|]).
    apply NoDup_nil_2.
  - exact (fmap_sublist fst _ _ (sublist_filter _ _)).
Qed.

Lemma model_dump_declared (b : bool) (P : StudentUpdate.t) :
  Forall (λ kv, kv.1 ∈ Student.model_fields) (StudentUpdate.model_dump b P).
Proof.
  apply Forall_forall. intros kv H%model_dump_keys.
  unfold StudentUpdate.model_fields in H. unfold Student.model_fields.
  elem_of_literal H; rewrite H; repeat constructor.
Qed.

Lemma matric_number_not_dumped (b : bool) (P : StudentUpdate.t) :
  "matric_number" ∉ (StudentUpdate.model_dump b P).*1.
Proof.
  intros ([k v] & Hk & H%model_dump_keys)%list_elem_of_fmap. simpl in *. subst k.
  unfold StudentUpdate.model_fields in H. by elem_of_literal H.
Qed.

(** ** Rows and instances *)

Lemma to_row_of_row (k : string) (r : Row.t) : to_row (of_row k r) = Some (k, r).
Proof. by destruct r. Qed.

Lemma getattr_to_row (o : Student.t) (k : string) (r : Row.t) (key : string) :
  to_row o = Some (k, r) → getattr (of_row k r) key = getattr o key.
Proof.
  destruct o as [[m|] [f|] [l|] e [p|] i]; unfold to_row; simpl; intros H;
    by simplify_eq.
Qed.

(** The UPDATE fails exactly when a NOT NULL column is asked to hold NULL. *)
Lemma to_row_None (o : Student.t) :
  to_row o = None →
  ∃ key, key ≠ "email" ∧ getattr o key = Some None.
Proof.
  destruct o as [[m|] [f|] [l|] e [p|] i]; unfold to_row; simpl; intros H;
    try done;
    first [ by exists "matric_number" | by exists "first_name"
          | by exists "last_name" | by exists "password" ].
Qed.

Lemma to_row_Some (o : Student.t) :
  (∀ key, key ≠ "email" → getattr o key ≠ Some None) → is_Some (to_row o).
Proof.
  intros H. destruct (to_row o) eqn:E; [done|].
  destruct (to_row_None o E) as (key & Hne & Hnull). by destruct (H key Hne).
Qed.

(** ** The gateway functions, run in a fresh session *)

Lemma get_student_run (db : gmap string Row.t) (k : string) :
  with_Session (crud.get_student_by_matric_number k) db
  = (Ok (of_row k <$> db !! k), db).
Proof. reflexivity. Qed.

Lemma create_students_run (db : gmap string Row.t) (student : StudentCreate.t) :
  with_Session (crud.create_students student) db
  = match db !! StudentCreate.matric_number student with
    | Some _ => (Raise IntegrityError, db)
    | None =>
        (Ok (of_row (StudentCreate.matric_number student) (row_of_create student)),
         <[StudentCreate.matric_number student := row_of_create student]> db)
    end.
Proof.
  unfold with_Session, crud.create_students, mbind, M_bind; simpl.
  unfold session_commit, flush_add, to_row; simpl.
  destruct (db !! StudentCreate.matric_number student) eqn:E; simpl; [done|].
  unfold session_refresh; simpl. by rewrite lookup_insert_eq.
Qed.

Lemma update_student_absent (db : gmap string Row.t) (k : string) (P : StudentUpdate.t) :
  db !! k = None → with_Session (crud.update_student k P) db = (Ok None, db).
Proof.
  intros E. unfold with_Session, crud.update_student, mbind, M_bind, session_get; simpl.
  by rewrite E.
Qed.

Lemma update_student_run (db : gmap string Row.t) (k : string) (P : StudentUpdate.t)
    (row : Row.t) (o' : Student.t) :
  db !! k = Some row →
  setattr_items (of_row k row) (StudentUpdate.model_dump true P) = Ok o' →
  Student.matric_number o' = Some k →
  Student.sa_identity o' = Some k →
  with_Session (crud.update_student k P) db
  = match to_row o' with
    | None => (Raise IntegrityError, db)
    | Some (_, row') => (Ok (Some (of_row k row')), <[k := row']> db)
    end.
Proof.
  intros E Hset Hm Hid.
  unfold with_Session, crud.update_student, mbind, M_bind, session_get; simpl.
  rewrite E; simpl. unfold lift. rewrite Hset; simpl.
  unfold session_commit; simpl. unfold flush_add.
  destruct (to_row o') as [[pk row']|] eqn:Erow; [|done].
  assert (pk = k) as ->.
  { destruct o' as [m f l e p i]; simpl in *. subst m.
    destruct f, l, p; unfold to_row in Erow; simpl in Erow; by simplify_eq. }
  rewrite Hid, E, lookup_delete_eq, insert_delete_eq; simpl.
  unfold session_refresh; simpl. by rewrite Hm, lookup_insert_eq.
Qed.

Lemma delete_student_run (db : gmap string Row.t) (k : string) :
  with_Session (crud.delete_student k) db
  = match db !! k with
    | None => (Ok PyNone, db)
    | Some _ => (Ok (PyStr "ok"), delete k db)
    end.
Proof.
  unfold with_Session, crud.delete_student, mbind, M_bind, session_get; simpl.
  destruct (db !! k) eqn:E; simpl; [|done].
  unfold session_commit, flush_delete; simpl. by rewrite E.
Qed.

(** What the update of an existing row does: the loop assigns the dumped items
    to the loaded instance, and the commit writes the instance back under the
    same key unless a NOT NULL column would hold NULL. *)
Lemma update_student_present (db : gmap string Row.t) (k : string) (P : StudentUpdate.t)
    (row : Row.t) :
  db !! k = Some row →
  ∃ o', setattr_items (of_row k row) (StudentUpdate.model_dump true P) = Ok o'
        ∧ (∀ key v, (key, v) ∈ StudentUpdate.model_dump true P → getattr o' key = Some v)
        ∧ (∀ key, key ∉ (StudentUpdate.model_dump true P).*1 →
                  getattr o' key = getattr (of_row k row) key)
        ∧ with_Session (crud.update_student k P) db
          = match to_row o' with
            | None => (Raise IntegrityError, db)
            | Some (_, row') => (Ok (Some (of_row k row')), <[k := row']> db)
            end.
Proof.
  intros E.
  destruct (setattr_items_spec (StudentUpdate.model_dump true P) (of_row k row)
              (model_dump_declared _ _) (model_dump_NoDup _ _))
    as (o' & Hset & Hid & Hin & Hout).
  exists o'. repeat split; try done.
  apply (update_student_run db k P row o' E Hset); [|by rewrite Hid].
  pose proof (Hout "matric_number" (matric_number_not_dumped _ _)) as Hm.
  unfold getattr in Hm. simpl in Hm. by simplify_eq.
Qed.

(** The two outcomes of the update of an existing row. *)
Lemma update_student_outcome (db : gmap string Row.t)
    (k : string) (row : Row.t) (P : StudentUpdate.t) :
  db !! k = Some row →
  (∃ row',
      with_Session (crud.update_student k P) db
      = (Ok (Some (of_row k row')), <[k := row']> db)
      ∧ (∀ key v, (key, v) ∈ StudentUpdate.model_dump true P →
                  getattr (of_row k row') key = Some v)
      ∧ (∀ key, key ∉ (StudentUpdate.model_dump true P).*1 →
                getattr (of_row k row') key = getattr (of_row k row) key))
  ∨ (with_Session (crud.update_student k P) db = (Raise IntegrityError, db)
     ∧ ∃ key, key ≠ "email" ∧ (key, None) ∈ StudentUpdate.model_dump true P).
Proof.
  intros E.
  destruct (update_student_present db k P row E) as (o' & Hset & Hin & Hout & Hrun).
  destruct (to_row o') as [[pk row']|] eqn:Erow.
  - left. exists row'. split; [done|].
    assert (pk = k) as ->.
    { pose proof (getattr_to_row o' pk row' "matric_number" Erow) as Hm.
      rewrite (Hout "matric_number" (matric_number_not_dumped _ _)) in Hm.
      unfold getattr in Hm. simpl in Hm. by simplify_eq. }
    split.
    + intros key v Hmem. rewrite (getattr_to_row o' k row' key Erow). by apply Hin.
    + intros key Hnot. rewrite (getattr_to_row o' k row' key Erow). by apply Hout.
  - right. split; [done|].
    destruct (to_row_None o' Erow) as (key & Hne & Hnull).
    exists key. split; [done|].
    destruct (decide (key ∈ (StudentUpdate.model_dump true P).*1)) as [Hmem|Hnot].
    + apply list_elem_of_fmap in Hmem as ([key' v] & -> & Hmem). simpl in *.
      rewrite (Hin key' v Hmem) in Hnull. by simplify_eq.
    + rewrite (Hout key Hnot) in Hnull. destruct row as [f l e p].
      unfold getattr in Hnull. simpl in Hnull.
      repeat case_decide; by simplify_eq.
Qed.

(** The dump with exclude_unset holds a declared field exactly when the field
    is in the set of fields sent, with the value the update view holds. *)
Lemma model_dump_elem (P : StudentUpdate.t) (key : string) (v : pyval) :
  (key, v) ∈ StudentUpdate.model_dump true P
  ↔ key ∈ StudentUpdate.model_fields
    ∧ key ∈ StudentUpdate.model_fields_set P
    ∧ getattr_update P key = Some v.
Proof.
  unfold StudentUpdate.model_dump, StudentUpdate.model_fields.
  rewrite list_elem_of_filter. simpl. split.
  - intros [[?|Hset] Hin]; [done|].
    elem_of_literal Hin; simplify_eq; (split; [repeat constructor|by split]).
  - intros (Hdecl & Hset & Hv). split; [by right|].
    elem_of_literal Hdecl; vm_compute in Hv; simplify_eq; repeat constructor.
Qed.

Lemma getattr_of_row_not_null (k : string) (r : Row.t) (key : string) :
  key ≠ "email" → getattr (of_row k r) key ≠ Some None.
Proof.
  intros Hne. destruct r as [f l e p]. unfold getattr. simpl.
  repeat case_decide; by simplify_eq.
Qed.

(** C1, as the claim states it, fails: the patch of the tests' student that
    sends first_name as null names first_name among its fields, yet no entity
    is returned and the stored first_name is still Adebola. *)
Lemma null_first_name_is_not_assigned :
  one_student !! "21cg029882" = Some adebola
  ∧ "first_name" ∈ StudentUpdate.model_fields_set null_first_name
  ∧ getattr_update null_first_name "first_name" = Some None
  ∧ (with_Session (crud.update_student "21cg029882" null_first_name) one_student).2
      !! "21cg029882"
    = Some (Row.mk "Adebola" "Odufuwa" None "password")
  ∧ ¬ ∃ updated db',
        with_Session (crud.update_student "21cg029882" null_first_name) one_student
        = (Ok (Some updated), db').
Proof.
  split; [reflexivity|]. split; [by vm_compute|]. split; [reflexivity|].
  split; [by vm_compute|].
  intros (updated & db' & H). vm_compute in H. discriminate H.
Qed.

(** C1, amended. For an existing student and a payload that sets none of
    first_name, last_name and password to null, the partial update succeeds
    and changes exactly the fields the payload sets: the returned entity is
    the stored one, each declared field in the payload's set of fields holds
    the value the payload gives it, and every other field holds its value
    from before. For a payload that sets one of the three to null, the update
    raises the integrity error, returns nothing, and the table, so every
    field of the stored entity, is as it was. *)
Theorem update_student_changes_exactly_sent_fields (db : gmap string Row.t)
    (k : string) (row : Row.t) (P : StudentUpdate.t) :
  db !! k = Some row →
  ((∀ key, key ∈ not_null_update_fields →
           key ∈ StudentUpdate.model_fields_set P →
           getattr_update P key ≠ Some None) →
   ∃ row',
     with_Session (crud.update_student k P) db
     = (Ok (Some (of_row k row')), <[k := row']> db)
     ∧ (∀ key, key ∈ StudentUpdate.model_fields →
               key ∈ StudentUpdate.model_fields_set P →
               getattr (of_row k row') key = getattr_update P key)
     ∧ (∀ key, ¬ (key ∈ StudentUpdate.model_fields
                  ∧ key ∈ StudentUpdate.model_fields_set P) →
               getattr (of_row k row') key = getattr (of_row k row) key))
  ∧ ((∃ key, key ∈ not_null_update_fields
             ∧ key ∈ StudentUpdate.model_fields_set P
             ∧ getattr_update P key = Some None) →
     with_Session (crud.update_student k P) db = (Raise IntegrityError, db)).
Proof.
  intros E.
  destruct (update_student_outcome db k row P E)
    as [(row' & Hrun & Hin & Hout)|(Hrun & key & Hne & Hnull)]; split.
  - intros _. exists row'. split; [done|]. split.
    + intros key Hdecl Hset.
      assert (∃ v, getattr_update P key = Some v) as [v Hv].
      { unfold StudentUpdate.model_fields in Hdecl.
        elem_of_literal Hdecl; by eexists. }
      rewrite Hv. apply Hin. by apply model_dump_elem.
    + intros key Hnot. apply Hout.
      intros ([key' v] & -> & (? & ? & _)%model_dump_elem)%list_elem_of_fmap.
      by apply Hnot.
  - intros (key & Hkey & Hset & Hnull). exfalso.
    apply (getattr_of_row_not_null k row' key).
    + unfold not_null_update_fields in Hkey. by elem_of_literal Hkey.
    + apply Hin. apply model_dump_elem. split; [|done].
      unfold not_null_update_fields in Hkey. unfold StudentUpdate.model_fields.
      elem_of_literal Hkey; repeat constructor.
  - intros Hok. exfalso.
    apply model_dump_elem in Hnull as (Hdecl & Hset & Hv).
    apply (Hok key); [|done..].
    unfold StudentUpdate.model_fields in Hdecl. unfold not_null_update_fields.
    elem_of_literal Hdecl; try done; repeat constructor.
  - by intros _.
Qed.

Lemma update_student_changes_exactly_sent_fields_witness :
  one_student !! "21cg029882" = Some adebola
  ∧ (∀ key, key ∈ not_null_update_fields →
            key ∈ StudentUpdate.model_fields_set email_patch →
            getattr_update email_patch key ≠ Some None)
  ∧ ∃ row',
      with_Session (crud.update_student "21cg029882" email_patch) one_student
      = (Ok (Some (of_row "21cg029882" row')), <["21cg029882" := row']> one_student)
      ∧ getattr (of_row "21cg029882" row') "email" = Some (Some "adeboladuf@gmail.com")
      ∧ getattr (of_row "21cg029882" row') "first_name" = Some (Some "Adebola").
Proof.
  assert (∀ key, key ∈ not_null_update_fields →
                 key ∈ StudentUpdate.model_fields_set email_patch →
                 getattr_update email_patch key ≠ Some None) as Hok.
  { intros key Hkey Hset. unfold not_null_update_fields in Hkey.
    elem_of_literal Hkey; by vm_compute in Hset. }
  split; [reflexivity|]. split; [exact Hok|].
  destruct (proj1 (update_student_changes_exactly_sent_fields one_student "21cg029882"
                     adebola email_patch ltac:(reflexivity)) Hok)
    as (row' & Hrun & Hin & Hout).
  exists row'. split; [exact Hrun|]. split.
  - apply (Hin "email"); [repeat constructor|by vm_compute].
  - rewrite (Hout "first_name"); [reflexivity|].
    intros [_ Hset]. by vm_compute in Hset.
Defined.

(** ** Response bodies *)

Lemma object_has_key_false (key : string) (o : gmap string json) :
  o !! key = None →
  (∀ k v, o !! k = Some v → json_has_key key v = false) →
  object_has_key key o = false.
Proof.
  intros Hkey Hvalues. unfold object_has_key.
  rewrite Hkey, bool_decide_eq_false_2 by (by intros [? ?]). simpl.
  apply not_true_is_false. intros ([k v] & Hin & Hv)%existsb_exists.
  apply list_elem_of_In, elem_of_map_to_list in Hin.
  simpl in Hv. by rewrite (Hvalues k v Hin) in Hv.
Qed.

Lemma json_of_pyval_flat (key : string) (v : pyval) :
  json_has_key key (json_of_pyval v) = false.
Proof. by destruct v. Qed.

Lemma StudentRead_model_dump_lookup (r : StudentRead.t) (k : string) (v : json) :
  StudentRead.model_dump r !! k = Some v →
  k ∈ StudentRead.model_fields ∧ ∀ key, json_has_key key v = false.
Proof.
  unfold StudentRead.model_dump, StudentRead.model_fields.
  repeat (rewrite lookup_insert; case_decide;
          [intros ?; simplify_eq; split;
           [repeat constructor | auto using json_of_pyval_flat]|]).
  by rewrite lookup_empty.
Qed.

Lemma StudentRead_model_dump_hides (r : StudentRead.t) (key : string) :
  key ∉ StudentRead.model_fields →
  object_has_key key (StudentRead.model_dump r) = false.
Proof.
  intros Hkey. apply object_has_key_false.
  - destruct (StudentRead.model_dump r !! key) eqn:E; [|done].
    by apply StudentRead_model_dump_lookup in E as [? _].
  - intros k v E. by apply StudentRead_model_dump_lookup in E as [_ ?].
Qed.

Lemma detail_hides (key detail : string) :
  key ≠ "detail" →
  object_has_key key ({["detail" := JStr detail]} : gmap string json) = false.
Proof.
  intros Hkey. apply object_has_key_false.
  - by apply lookup_singleton_ne.
  - intros k v [_ <-]%lookup_singleton_Some. done.
Qed.

Lemma response_StudentRead_hides (key : string) (o : Student.t) (c : content) :
  key ∉ StudentRead.model_fields →
  response_StudentRead o = Ok c → content_has_key key c = false.
Proof.
  intros Hkey. unfold response_StudentRead.
  destruct (StudentRead.model_validate o); intros H; simplify_eq.
  by apply StudentRead_model_dump_hides.
Qed.

Lemma response_list_StudentRead_hides (key : string) (l : list Student.t) (c : content) :
  key ∉ StudentRead.model_fields →
  response_list_StudentRead l = Ok c → content_has_key key c = false.
Proof.
  intros Hkey. unfold response_list_StudentRead.
  destruct (mapM_result _ l) as [objs|] eqn:E; intros H; simplify_eq. simpl.
  revert objs E. induction l as [|o l IH]; intros objs E; simpl in E.
  - by simplify_eq.
  - destruct (StudentRead.model_validate o) as [r|]; [|done].
    destruct (mapM_result _ l) as [objs'|]; [|done]. simplify_eq. simpl.
    rewrite (StudentRead_model_dump_hides r key Hkey). by apply IH.
Qed.

(** A path operation answers with what its serialiser produces, or with the
    detail of an HTTPException. *)
Lemma path_operation_hides {A} (key : string) (serialise : A → result content)
    (endpoint : M A) (db : gmap string Row.t) (status_code : Z) (c : content) :
  key ≠ "detail" →
  (∀ a c, serialise a = Ok c → content_has_key key c = false) →
  (path_operation serialise endpoint db).1 = Response status_code c →
  content_has_key key c = false.
Proof.
  intros Hkey Hser. unfold path_operation.
  destruct (with_Session endpoint db) as [[a|e] db']; simpl.
  - destruct (serialise a) as [c'|] eqn:E; intros H; simplify_eq. by eapply Hser.
  - destruct e; intros H; simplify_eq. simpl. by apply detail_hides.
Qed.

(** C2. Whatever a route with the [StudentRead] response model answers, for
    creation, listing, lookup by key and partial update, its body holds no
    [password] key, at any depth. *)
Theorem password_never_in_response (db : gmap string Row.t) (status_code : Z)
    (c : content) :
  student_response db (Response status_code c) →
  content_has_key "password" c = false.
Proof.
  assert ("password" ∉ StudentRead.model_fields) as Hkey.
  { unfold StudentRead.model_fields. intros H. by elem_of_literal H. }
  intros H. remember (Response status_code c) as r eqn:E.
  destruct H as [body| |k|k body].
  - unfold better_app.POST_student, with_body in E.
    destruct (StudentCreate.model_validate body); [|done].
    eapply path_operation_hides; [done| |exact E].
    intros a c'. by apply response_StudentRead_hides.
  - eapply path_operation_hides; [done| |exact E].
    intros a c'. by apply response_list_StudentRead_hides.
  - eapply path_operation_hides; [done| |exact E].
    intros a c'. by apply response_StudentRead_hides.
  - unfold better_app.PATCH_student, with_body in E.
    destruct (StudentUpdate.model_validate body); [|done].
    eapply path_operation_hides; [done| |exact E].
    intros a c'. by apply response_StudentRead_hides.
Qed.

Lemma password_never_in_response_witness :
  student_response one_student
    (Response 200 (JsonObject (StudentRead.model_dump
                                 (StudentRead.mk "21cg029882" "Adebola" "Odufuwa" None))))
  ∧ content_has_key "password"
      (JsonObject (StudentRead.model_dump
                     (StudentRead.mk "21cg029882" "Adebola" "Odufuwa" None)))
    = false.
Proof.
  assert (student_response one_student
            (Response 200 (JsonObject (StudentRead.model_dump
               (StudentRead.mk "21cg029882" "Adebola" "Odufuwa" None))))) as H.
  { exact (response_of_get one_student "21cg029882"). }
  split; [exact H|].
  exact (password_never_in_response one_student 200 _ H).
Defined.

(** ** Creation and lookup *)

(** C3. Creating a student from a creation view and looking the created
    entity up by its matric_number finds an entity whose read view is the
    input without its password. Creation returns whenever the key is free;
    otherwise it raises the integrity error of the primary key, and no
    entity is created. *)
Theorem create_then_get_round_trip (db : gmap string Row.t) (input : StudentCreate.t) :
  match with_Session (crud.create_students input) db with
  | (Ok created, db') =>
      ∃ key found,
        Student.matric_number created = Some key
        ∧ with_Session (crud.get_student_by_matric_number key) db' = (Ok (Some found), db')
        ∧ StudentRead.model_validate found = Some (read_of_create input)
        ∧ db !! StudentCreate.matric_number input = None
  | (Raise e, db') =>
      e = IntegrityError ∧ db' = db
      ∧ is_Some (db !! StudentCreate.matric_number input)
  end.
Proof.
  rewrite create_students_run.
  destruct (db !! StudentCreate.matric_number input) eqn:E; [by eauto|].
  exists (StudentCreate.matric_number input),
         (of_row (StudentCreate.matric_number input) (row_of_create input)).
  rewrite get_student_run, lookup_insert_eq. by destruct input.
Qed.

(** ** Absent keys *)

(** C4. On a key that the table does not hold, lookup, partial update and
    delete all hand back None and leave the table as it is; the handlers
    answer with a client error, 400 for the lookup and 404 for update and
    delete, and the table is still the same. *)
Theorem absent_key_is_reported_not_found (db : gmap string Row.t) (k : string)
    (P : StudentUpdate.t) :
  db !! k = None →
  with_Session (crud.get_student_by_matric_number k) db = (Ok None, db)
  ∧ with_Session (crud.update_student k P) db = (Ok None, db)
  ∧ with_Session (crud.delete_student k) db = (Ok PyNone, db)
  ∧ better_app.GET_student k db
    = (Response 400 (JsonObject {["detail" := JStr "Student not found"]}), db)
  ∧ path_operation response_StudentRead (better_app.update_student k P) db
    = (Response 404 (JsonObject {["detail" := JStr "Student not found"]}), db)
  ∧ better_app.DELETE_student k db
    = (Response 404 (JsonObject {["detail" := JStr "Student not found"]}), db)
  ∧ is_client_error (better_app.GET_student k db).1 = true
  ∧ is_client_error
      (path_operation response_StudentRead (better_app.update_student k P) db).1 = true
  ∧ is_client_error (better_app.DELETE_student k db).1 = true
  ∧ (∀ body, is_client_error (better_app.PATCH_student k body db).1 = true
             ∧ (better_app.PATCH_student k body db).2 = db).
Proof.
  intros E.
  assert (better_app.GET_student k db
          = (Response 400 (JsonObject {["detail" := JStr "Student not found"]}), db)) as Hget.
  { unfold better_app.GET_student, path_operation, with_Session, better_app.read_student,
      crud.get_student_by_matric_number, mbind, M_bind, session_get; simpl.
    by rewrite E. }
  assert (path_operation response_StudentRead (better_app.update_student k P) db
          = (Response 404 (JsonObject {["detail" := JStr "Student not found"]}), db)) as Hpatch.
  { pose proof (update_student_absent db k P E) as Hrun.
    unfold path_operation, with_Session, better_app.update_student, mbind, M_bind in *.
    destruct (crud.update_student k P (Session.open db)) as [r s]. by simplify_eq. }
  assert (better_app.DELETE_student k db
          = (Response 404 (JsonObject {["detail" := JStr "Student not found"]}), db)) as Hdel.
  { pose proof (delete_student_run db k) as Hrun. rewrite E in Hrun.
    unfold better_app.DELETE_student, path_operation, with_Session,
      better_app.delete_student, mbind, M_bind in *.
    destruct (crud.delete_student k (Session.open db)) as [r s]. by simplify_eq. }
  rewrite get_student_run, E, (update_student_absent db k P E), delete_student_run, E.
  rewrite Hget, Hpatch, Hdel. repeat split; try done.
  - unfold better_app.PATCH_student, with_body.
    destruct (StudentUpdate.model_validate body) as [P'|]; [|done].
    pose proof (update_student_absent db k P' E) as Hrun.
    unfold path_operation, with_Session, better_app.update_student, mbind, M_bind in *.
    destruct (crud.update_student k P' (Session.open db)) as [r s]. by simplify_eq.
  - unfold better_app.PATCH_student, with_body.
    destruct (StudentUpdate.model_validate body) as [P'|]; [|done].
    pose proof (update_student_absent db k P' E) as Hrun.
    unfold path_operation, with_Session, better_app.update_student, mbind, M_bind in *.
    destruct (crud.update_student k P' (Session.open db)) as [r s]. by simplify_eq.
Qed.

Lemma absent_key_is_reported_not_found_witness :
  one_student !! "21cg029883" = None
  ∧ with_Session (crud.delete_student "21cg029883") one_student = (Ok PyNone, one_student)
  ∧ is_client_error (better_app.DELETE_student "21cg029883" one_student).1 = true.
Proof.
  split; [reflexivity|].
  pose proof (absent_key_is_reported_not_found one_student "21cg029883" email_patch
                ltac:(reflexivity)) as H.
  split; [apply H|apply H].
Defined.

(** ** Deletion *)

(** C6. When the gateway delete succeeds on a key, that is, hands back a
    truthy value, the row is gone: a lookup of the key in the table it leaves
    hands back None, and the lookup handler answers not found. *)
Theorem get_after_delete_is_absent (db db' : gmap string Row.t) (k : string)
    (v : pyobj) :
  with_Session (crud.delete_student k) db = (Ok v, db') →
  truthy v = true →
  db' !! k = None
  ∧ with_Session (crud.get_student_by_matric_number k) db' = (Ok None, db')
  ∧ better_app.GET_student k db'
    = (Response 400 (JsonObject {["detail" := JStr "Student not found"]}), db').
Proof.
  rewrite delete_student_run. intros Hrun Hv.
  destruct (db !! k) eqn:E; simplify_eq.
  assert (delete k db !! k = None) as Hgone by apply lookup_delete_eq.
  split; [done|]. rewrite get_student_run, Hgone. split; [done|].
  unfold better_app.GET_student, path_operation, with_Session, better_app.read_student,
    crud.get_student_by_matric_number, mbind, M_bind, session_get; simpl.
  by rewrite Hgone.
Qed.

Lemma get_after_delete_is_absent_witness :
  with_Session (crud.delete_student "21cg029882") one_student = (Ok (PyStr "ok"), ∅)
  ∧ truthy (PyStr "ok") = true
  ∧ with_Session (crud.get_student_by_matric_number "21cg029882") ∅ = (Ok None, ∅).
Proof.
  split; [reflexivity|]. split; [reflexivity|].
  apply (get_after_delete_is_absent one_student ∅ "21cg029882" (PyStr "ok"));
    reflexivity.
Defined.

(** C7, as the claim states it, fails: for the one student of the tests the
    gateway delete hands back the string ok, not the entity it removed. *)
Lemma delete_student_returns_no_entity :
  one_student !! "21cg029882" = Some adebola
  ∧ (with_Session (crud.delete_student "21cg029882") one_student).1
    ≠ Ok (PyStudent (of_row "21cg029882" adebola))
  ∧ ¬ ∃ o, (with_Session (crud.delete_student "21cg029882") one_student).1
           = Ok (PyStudent o).
Proof.
  split; [reflexivity|]. split.
  - intros H. vm_compute in H. discriminate H.
  - intros [o H]. vm_compute in H. discriminate H.
Qed.

(** C7, amended. For a key that the table holds, the gateway delete removes
    the row, leaves every other row, and hands back the acknowledgment string
    ok; the handler answers 200 with the body ok: true. *)
Theorem delete_student_removes_and_acknowledges (db : gmap string Row.t) (k : string)
    (row : Row.t) :
  db !! k = Some row →
  with_Session (crud.delete_student k) db = (Ok (PyStr "ok"), delete k db)
  ∧ delete k db !! k = None
  ∧ (∀ k', k' ≠ k → delete k db !! k' = db !! k')
  ∧ better_app.DELETE_student k db
    = (Response 200 (JsonObject {["ok" := JBool true]}), delete k db).
Proof.
  intros E. pose proof (delete_student_run db k) as Hrun. rewrite E in Hrun.
  split; [done|]. split; [apply lookup_delete_eq|].
  split; [intros k' Hne; by apply lookup_delete_ne|].
  unfold better_app.DELETE_student, path_operation, with_Session,
    better_app.delete_student, mbind, M_bind in *.
  destruct (crud.delete_student k (Session.open db)) as [r s]. simplify_eq. simpl. by f_equal.
Qed.

Lemma delete_student_removes_and_acknowledges_witness :
  one_student !! "21cg029882" = Some adebola
  ∧ with_Session (crud.delete_student "21cg029882") one_student
    = (Ok (PyStr "ok"), delete "21cg029882" one_student).
Proof.
  split; [reflexivity|].
  apply (delete_student_removes_and_acknowledges one_student "21cg029882" adebola).
  reflexivity.
Defined.

(** ** Duplicate keys *)

(** C8, as the claim states it, fails: creating the student of the tests a
    second time is answered with the unhandled integrity error of the table,
    status 500, not with a client error. *)
Lemma duplicate_create_is_not_a_client_error :
  one_student !! "21cg029882" = Some adebola
  ∧ StudentCreate.model_validate adebola_json = Some adebola_create
  ∧ better_app.POST_student adebola_json one_student
    = (Unhandled IntegrityError, one_student)
  ∧ is_client_error (better_app.POST_student adebola_json one_student).1 = false.
Proof. by vm_compute. Qed.

(** C8, amended. Creating a student whose matric_number the table already
    holds fails with the integrity error of the primary key; neither the
    gateway nor the handler catches it, so the request ends as an unhandled
    exception, status 500; the table, and so the existing row, is unchanged. *)
Theorem duplicate_create_raises_integrity_error (db : gmap string Row.t)
    (student : StudentCreate.t) (row : Row.t) :
  db !! StudentCreate.matric_number student = Some row →
  with_Session (crud.create_students student) db = (Raise IntegrityError, db)
  ∧ path_operation response_StudentRead (better_app.create_student student) db
    = (Unhandled IntegrityError, db)
  ∧ path_operation response_StudentRead (app.create_student student) db
    = (Unhandled IntegrityError, db)
  ∧ status (Unhandled IntegrityError) = 500.
Proof.
  intros E. pose proof (create_students_run db student) as Hrun. rewrite E in Hrun.
  split; [done|].
  unfold path_operation, better_app.create_student, app.create_student.
  change (session_add (Student_model_validate student);; session_commit;;
          session_refresh (Student_model_validate student) ≫= λ db_student, mret db_student)
    with (crud.create_students student).
  by rewrite Hrun.
Qed.

Lemma duplicate_create_raises_integrity_error_witness :
  one_student !! StudentCreate.matric_number adebola_create = Some adebola
  ∧ with_Session (crud.create_students adebola_create) one_student
    = (Raise IntegrityError, one_student).
Proof.
  split; [reflexivity|].
  apply (duplicate_create_raises_integrity_error one_student adebola_create adebola).
  reflexivity.
Defined.

(** ** Explicit nulls *)




(** ** The primary key *)

Lemma update_student_dom (db : gmap string Row.t) (k : string) (P : StudentUpdate.t) :
  dom (with_Session (crud.update_student k P) db).2 = dom db.
Proof.
  destruct (db !! k) as [row|] eqn:E.
  - destruct (update_student_outcome db k row P E) as [(row' & -> & _)|(-> & _)];
      [|done].
    simpl. apply dom_insert_lookup_L. by rewrite E.
  - by rewrite (update_student_absent db k P E).
Qed.

(** The handler does to the table what the gateway function does. *)
Lemma path_operation_update_student (db : gmap string Row.t) (k : string)
    (P : StudentUpdate.t) :
  (path_operation response_StudentRead (better_app.update_student k P) db).2
  = (with_Session (crud.update_student k P) db).2.
Proof.
  unfold path_operation, with_Session, better_app.update_student, mbind, M_bind.
  destruct (crud.update_student k P (Session.open db)) as [[[o|]|e] s]; done.
Qed.

Lemma PATCH_student_dom (db : gmap string Row.t) (k : string) (body : gmap string json) :
  dom (better_app.PATCH_student k body db).2 = dom db.
Proof.
  unfold better_app.PATCH_student, with_body.
  destruct (StudentUpdate.model_validate body) as [P|]; [|done].
  rewrite path_operation_update_student. apply update_student_dom.
Qed.

(** C9. No update payload changes a matric_number: the loop over the dumped
    payload leaves that attribute of the entity as it was, an entity that the
    update returns carries the key it was asked for, and after any sequence
    of PATCH requests, whatever their bodies, the table holds rows under
    exactly the keys it held before. *)
Theorem matric_number_is_immutable :
  (∀ (o : Student.t) (P : StudentUpdate.t),
      ∃ o', setattr_items o (StudentUpdate.model_dump true P) = Ok o'
            ∧ Student.matric_number o' = Student.matric_number o)
  ∧ (∀ (db db' : gmap string Row.t) (k : string) (P : StudentUpdate.t) (updated : Student.t),
        with_Session (crud.update_student k P) db = (Ok (Some updated), db') →
        Student.matric_number updated = Some k ∧ dom db' = dom db)
  ∧ (∀ (requests : list (string * gmap string json)) (db : gmap string Row.t),
        dom (PATCH_all requests db) = dom db).
Proof.
  split; [|split].
  - intros o P.
    destruct (setattr_items_spec (StudentUpdate.model_dump true P) o
                (model_dump_declared _ _) (model_dump_NoDup _ _))
      as (o' & Hset & _ & _ & Hout).
    exists o'. split; [done|].
    pose proof (Hout "matric_number" (matric_number_not_dumped _ _)) as Hm.
    unfold getattr in Hm. simpl in Hm. by simplify_eq.
  - intros db db' k P updated Hrun.
    pose proof (update_student_dom db k P) as Hdom. rewrite Hrun in Hdom.
    split; [|done].
    destruct (db !! k) as [row|] eqn:E.
    + destruct (update_student_outcome db k row P E) as [(row' & Hrun' & _)|(Hrun' & _)];
        rewrite Hrun' in Hrun; by simplify_eq.
    + rewrite (update_student_absent db k P E) in Hrun. by simplify_eq.
  - induction requests as [|[k body] requests IH]; intros db; simpl; [done|].
    rewrite IH. apply PATCH_student_dom.
Qed.

Lemma matric_number_is_immutable_witness :
  with_Session (crud.update_student "21cg029882" email_patch) one_student
  = (Ok (Some (of_row "21cg029882"
                 (Row.mk "Adebola" "Odufuwa" (Some "adeboladuf@gmail.com") "password"))),
     {["21cg029882" :=
         Row.mk "Adebola" "Odufuwa" (Some "adeboladuf@gmail.com") "password"]})
  ∧ Student.matric_number
      (of_row "21cg029882"
         (Row.mk "Adebola" "Odufuwa" (Some "adeboladuf@gmail.com") "password"))
    = Some "21cg029882"
  ∧ dom ({["21cg029882" :=
             Row.mk "Adebola" "Odufuwa" (Some "adeboladuf@gmail.com") "password"]}
         : gmap string Row.t)
    = dom one_student.
Proof.
  split; [reflexivity|].
  apply (proj1 (proj2 matric_number_is_immutable) one_student _ "21cg029882" email_patch).
  reflexivity.
Defined.

(** ** Undeclared keys *)

Lemma lookup_union_undeclared (extra body : gmap string json) (fields : list string)
    (f : string) :
  (∀ f, f ∈ fields → extra !! f = None) →
  f ∈ fields → (extra ∪ body) !! f = body !! f.
Proof. intros Hextra Hf. apply lookup_union_r. by apply Hextra. Qed.

Lemma StudentCreate_model_validate_ignores (extra body : gmap string json) :
  (∀ f, f ∈ StudentCreate.model_fields → extra !! f = None) →
  StudentCreate.model_validate (extra ∪ body) = StudentCreate.model_validate body.
Proof.
  intros Hextra. unfold StudentCreate.model_validate.
  rewrite !(lookup_union_undeclared extra body StudentCreate.model_fields _ Hextra);
    [done|unfold StudentCreate.model_fields; repeat constructor..].
Qed.

Lemma POST_student_created (db : gmap string Row.t) (body : gmap string json)
    (student : StudentCreate.t) :
  StudentCreate.model_validate body = Some student →
  db !! StudentCreate.matric_number student = None →
  better_app.POST_student body db
  = (Response 200 (JsonObject (StudentRead.model_dump (read_of_create student))),
     <[StudentCreate.matric_number student := row_of_create student]> db).
Proof.
  intros Hvalid E. pose proof (create_students_run db student) as Hrun.
  rewrite E in Hrun.
  unfold better_app.POST_student, with_body. rewrite Hvalid.
  unfold path_operation, better_app.create_student. rewrite Hrun.
  by destruct student.
Qed.

Lemma StudentRead_model_dump_dom (r : StudentRead.t) :
  dom (StudentRead.model_dump r) = list_to_set StudentRead.model_fields.
Proof.
  unfold StudentRead.model_dump, StudentRead.model_fields.
  rewrite !dom_insert_L, dom_empty_L. simpl. done.
Qed.

(** A body that holds the four required fields as strings, and email as a
    string, as null or not at all, is a valid creation view. *)
Lemma StudentCreate_model_validate_fit (body : gmap string json)
    (m f l p : string) (e : pyval) :
  body !! "matric_number" = Some (JStr m) →
  body !! "first_name" = Some (JStr f) →
  body !! "last_name" = Some (JStr l) →
  body !! "password" = Some (JStr p) →
  body !! "email" = Some (json_of_pyval e) ∨ (body !! "email" = None ∧ e = None) →
  StudentCreate.model_validate body = Some (StudentCreate.mk m f l e p).
Proof.
  intros Hm Hf Hl Hp He. unfold StudentCreate.model_validate.
  rewrite Hm, Hf, Hl, Hp. simpl.
  destruct He as [->|[-> ->]]; [|done]. by destruct e.
Qed.

(** C10. Keys of a creation payload that the creation view does not declare
    are ignored. A payload that holds matric_number, first_name, last_name
    and password as strings, email as a string, as null or not at all, and
    any undeclared keys besides, is accepted when the key is free: both
    applications answer 200, the stored row and the answer are built from
    the declared fields alone, the answer has the four keys of the read view
    and none of the undeclared keys. Whatever the declared part, the request
    is answered, and changes the table, exactly as without the undeclared
    keys. *)
Theorem undeclared_keys_are_ignored (db : gmap string Row.t)
    (body extra : gmap string json) :
  (∀ key, key ∈ StudentCreate.model_fields → extra !! key = None) →
  (better_app.POST_student (extra ∪ body) db = better_app.POST_student body db
   ∧ app.POST_student (extra ∪ body) db = app.POST_student body db)
  ∧ (∀ (m f l p : string) (e : pyval),
        body !! "matric_number" = Some (JStr m) →
        body !! "first_name" = Some (JStr f) →
        body !! "last_name" = Some (JStr l) →
        body !! "password" = Some (JStr p) →
        body !! "email" = Some (json_of_pyval e) ∨ (body !! "email" = None ∧ e = None) →
        db !! m = None →
        better_app.POST_student (extra ∪ body) db
        = (Response 200 (JsonObject (StudentRead.model_dump (StudentRead.mk m f l e))),
           <[m := Row.mk f l e p]> db)
        ∧ app.POST_student (extra ∪ body) db
          = (Response 200 (JsonObject (StudentRead.model_dump (StudentRead.mk m f l e))),
             <[m := Row.mk f l e p]> db)
        ∧ dom (StudentRead.model_dump (StudentRead.mk m f l e))
          = list_to_set StudentRead.model_fields
        ∧ (∀ key, is_Some (extra !! key) →
                  object_has_key key (StudentRead.model_dump (StudentRead.mk m f l e))
                  = false)).
Proof.
  intros Hextra.
  pose proof (StudentCreate_model_validate_ignores extra body Hextra) as Hsame.
  split.
  - split.
    + unfold better_app.POST_student, with_body. by rewrite Hsame.
    + unfold app.POST_student, with_body. by rewrite Hsame.
  - intros m f l p e Hm Hf Hl Hp He E.
    pose proof (StudentCreate_model_validate_fit body m f l p e Hm Hf Hl Hp He)
      as Hvalid.
    assert (better_app.POST_student (extra ∪ body) db
            = (Response 200 (JsonObject (StudentRead.model_dump (StudentRead.mk m f l e))),
               <[m := Row.mk f l e p]> db)) as Hpost.
    { apply (POST_student_created db (extra ∪ body) (StudentCreate.mk m f l e p));
        [by rewrite Hsame|done]. }
    split; [done|]. split; [exact Hpost|].
    split; [apply StudentRead_model_dump_dom|].
    intros key Hkey. apply StudentRead_model_dump_hides. intros Hread.
    assert (key ∈ StudentCreate.model_fields) as Hdecl.
    { unfold StudentRead.model_fields in Hread. unfold StudentCreate.model_fields.
      elem_of_literal Hread; repeat constructor. }
    rewrite (Hextra key Hdecl) in Hkey. by destruct Hkey.
Qed.

Lemma undeclared_keys_are_ignored_witness :
  (∀ key, key ∈ StudentCreate.model_fields →
          ({["nickname" := JStr "Debo"]} : gmap string json) !! key = None)
  ∧ adebola_json !! "matric_number" = Some (JStr "21cg029882")
  ∧ adebola_json !! "first_name" = Some (JStr "Adebola")
  ∧ adebola_json !! "last_name" = Some (JStr "Odufuwa")
  ∧ adebola_json !! "password" = Some (JStr "someone")
  ∧ adebola_json !! "email" = Some (json_of_pyval (Some "adeboladuf@gmail.com"))
  ∧ (∅ : gmap string Row.t) !! "21cg029882" = None
  ∧ better_app.POST_student ({["nickname" := JStr "Debo"]} ∪ adebola_json) ∅
    = (Response 200
         (JsonObject (StudentRead.model_dump
                        (StudentRead.mk "21cg029882" "Adebola" "Odufuwa"
                           (Some "adeboladuf@gmail.com")))),
       <["21cg029882" :=
           Row.mk "Adebola" "Odufuwa" (Some "adeboladuf@gmail.com") "someone"]> ∅).
Proof.
  assert (∀ key, key ∈ StudentCreate.model_fields →
                 ({["nickname" := JStr "Debo"]} : gmap string json) !! key = None) as H.
  { intros key Hkey. unfold StudentCreate.model_fields in Hkey.
    elem_of_literal Hkey; reflexivity. }
  split; [exact H|]. repeat (split; [reflexivity|]).
  exact (proj1 (proj2 (undeclared_keys_are_ignored ∅ adebola_json
                         {["nickname" := JStr "Debo"]} H)
                  "21cg029882" "Adebola" "Odufuwa" "someone"
                  (Some "adeboladuf@gmail.com")
                  ltac:(reflexivity) ltac:(reflexivity) ltac:(reflexivity)
                  ltac:(reflexivity) ltac:(left; reflexivity) ltac:(reflexivity))).
Defined.

(** ** The two applications agree *)

Lemma app_create_student_agrees (student : StudentCreate.t) :
  app.create_student student = better_app.create_student student.
Proof. reflexivity. Qed.

Lemma app_update_student_agrees (k : string) (P : StudentUpdate.t) (s : Session.t) :
  app.update_student k P s = better_app.update_student k P s.
Proof.
  unfold app.update_student, better_app.update_student, crud.update_student,
    mbind, M_bind, session_get; simpl.
  destruct (Session.database s !! k) as [row|]; simpl; [|done].
  unfold lift.
  destruct (setattr_items (of_row k row) (StudentUpdate.model_dump true P)) as [o|e];
    simpl; [|done].
  destruct (session_commit _) as [[[]|e] s1]; simpl; [|done].
  by destruct (session_refresh o s1) as [[o'|e] s2].
Qed.

Lemma app_PATCH_student_agrees (k : string) (body : gmap string json)
    (db : gmap string Row.t) :
  app.PATCH_student k body db = better_app.PATCH_student k body db.
Proof.
  unfold app.PATCH_student, better_app.PATCH_student, with_body.
  destruct (StudentUpdate.model_validate body) as [P|]; [|done].
  unfold path_operation, with_Session. by rewrite app_update_student_agrees.
Qed.

Lemma app_delete_student_agrees (k : string) (s : Session.t) :
  app.delete_student k s = better_app.delete_student k s.
Proof.
  unfold app.delete_student, better_app.delete_student, crud.delete_student,
    mbind, M_bind, session_get; simpl.
  destruct (Session.database s !! k) as [row|]; simpl; [|done].
  unfold session_delete; simpl.
  by destruct (session_commit _) as [[[]|e] s1].
Qed.

(** ** The scenarios of the tests *)

Example test_create_student :
  better_app.POST_student adebola_json ∅
  = (Response 200 (JsonObject (StudentRead.model_dump
                                 (StudentRead.mk "21cg029882" "Adebola" "Odufuwa"
                                    (Some "adeboladuf@gmail.com")))),
     {["21cg029882" := Row.mk "Adebola" "Odufuwa" (Some "adeboladuf@gmail.com") "someone"]}).
Proof. reflexivity. Qed.

Example test_create_student_incomplete :
  (better_app.POST_student
     (<["matric_number" := JStr "21cg029882"]> {["first_name" := JStr "Adebola"]}) ∅).1
  = RequestValidationError.
Proof. reflexivity. Qed.

Example test_create_student_invalid :
  status (better_app.POST_student
            (<["matric_number" := JArr [JStr "21cg029882"]]> adebola_json) ∅).1
  = 422.
Proof. reflexivity. Qed.

Example test_patch_student :
  better_app.PATCH_student "21cg029882" {["email" := JStr "adeboladuf@gmail.com"]}
    one_student
  = (Response 200 (JsonObject (StudentRead.model_dump
                                 (StudentRead.mk "21cg029882" "Adebola" "Odufuwa"
                                    (Some "adeboladuf@gmail.com")))),
     {["21cg029882" := Row.mk "Adebola" "Odufuwa" (Some "adeboladuf@gmail.com") "password"]}).
Proof. reflexivity. Qed.

Example test_delete_student :
  better_app.DELETE_student "21cg029882" one_student
  = (Response 200 (JsonObject {["ok" := JBool true]}), ∅).
Proof. reflexivity. Qed.

(** * Further properties of the gateway and the handlers *)

(** ** Reading *)

#[local] Instance of_row_inj : Inj (=) (=) (λ kr : string * Row.t, of_row kr.1 kr.2).
Proof.
  intros [k1 [f1 l1 e1 p1]] [k2 [f2 l2 e2 p2]] H. unfold of_row in H. simpl in H.
  by simplify_eq.
Qed.

Lemma response_StudentRead_of_row (k : string) (r : Row.t) :
  response_StudentRead (of_row k r)
  = Ok (JsonObject (StudentRead.model_dump (read_of_row k r))).
Proof. reflexivity. Qed.

Lemma response_list_StudentRead_of_rows (rows : list (string * Row.t)) :
  response_list_StudentRead (map (λ kr, of_row kr.1 kr.2) rows)
  = Ok (JsonArray (map (λ kr, StudentRead.model_dump (read_of_row kr.1 kr.2)) rows)).
Proof.
  unfold response_list_StudentRead.
  induction rows as [|[k r] rows IH]; simpl; [done|].
  destruct (mapM_result _ _) as [objs|e]; by simplify_eq.
Qed.

(** X1. The gateway listing returns, without touching the table, one entity
    for each row and nothing else: an entity is listed exactly when it is the
    image of a stored row, no entity is listed twice, and the list is as long
    as the table is large; for the empty table it is empty. *)
Theorem get_students_lists_every_row_once (db : gmap string Row.t) :
  ∃ students,
    with_Session crud.get_students db = (Ok students, db)
    ∧ (∀ o, o ∈ students ↔ ∃ k row, db !! k = Some row ∧ o = of_row k row)
    ∧ NoDup students
    ∧ length students = size db
    ∧ (db = ∅ → students = []).
Proof.
  exists (map (λ kr, of_row kr.1 kr.2) (map_to_list db)).
  split; [done|]. split; [|split; [|split]].
  - intros o. rewrite list_elem_of_fmap. split.
    + intros ([k row] & -> & Hin). exists k, row.
      by apply elem_of_map_to_list in Hin.
    + intros (k & row & Hin & ->). exists (k, row).
      split; [done|]. by apply elem_of_map_to_list.
  - apply (NoDup_fmap_2 (λ kr : string * Row.t, of_row kr.1 kr.2)), NoDup_map_to_list.
  - by rewrite length_map, length_map_to_list.
  - intros ->. by rewrite map_to_list_empty.
Qed.

(** The listing route, run on a table. *)
Lemma GET_students_run (db : gmap string Row.t) :
  ∃ objs,
    better_app.GET_students db = (Response 200 (JsonArray objs), db)
    ∧ length objs = size db
    ∧ (∀ o, o ∈ objs ↔
            ∃ k row, db !! k = Some row ∧ o = StudentRead.model_dump (read_of_row k row))
    ∧ (db = ∅ → objs = []).
Proof.
  exists (map (λ kr, StudentRead.model_dump (read_of_row kr.1 kr.2)) (map_to_list db)).
  split; [|split; [|split]].
  - unfold better_app.GET_students, path_operation, with_Session,
      better_app.read_students, crud.get_students, session_select_all; simpl.
    by rewrite response_list_StudentRead_of_rows.
  - by rewrite length_map, length_map_to_list.
  - intros o. rewrite list_elem_of_fmap. split.
    + intros ([k row] & -> & Hin). exists k, row.
      by apply elem_of_map_to_list in Hin.
    + intros (k & row & Hin & ->). exists (k, row).
      split; [done|]. by apply elem_of_map_to_list.
  - intros ->. by rewrite map_to_list_empty.
Qed.

(** X2. GET /students always answers 200 with an array, never an error, and
    leaves the table as it is; the array has one object per row, each the
    read view of a row, and is empty for the empty table. *)
Theorem GET_students_always_answers_200 (db : gmap string Row.t) :
  ∃ objs,
    better_app.GET_students db = (Response 200 (JsonArray objs), db)
    ∧ length objs = size db
    ∧ (∀ o, o ∈ objs ↔
            ∃ k row, db !! k = Some row ∧ o = StudentRead.model_dump (read_of_row k row))
    ∧ (db = ∅ → objs = []).
Proof. apply GET_students_run. Qed.

Lemma GET_student_run (db : gmap string Row.t) (k : string) :
  better_app.GET_student k db
  = match db !! k with
    | Some row => (Response 200 (JsonObject (StudentRead.model_dump (read_of_row k row))), db)
    | None => (Response 400 (JsonObject {["detail" := JStr "Student not found"]}), db)
    end.
Proof.
  unfold better_app.GET_student, path_operation, with_Session, better_app.read_student,
    crud.get_student_by_matric_number, mbind, M_bind, session_get; simpl.
  by destruct (db !! k).
Qed.

(** X3. GET /students/{matric_number} on a key that the table holds answers
    200 with the read view of that row, matric_number, first_name, last_name
    and email as stored; whatever the key, the lookup leaves the table as it
    is and never ends in an unhandled exception. *)
Theorem GET_student_answers_the_stored_row (db : gmap string Row.t) (k : string)
    (row : Row.t) :
  db !! k = Some row →
  better_app.GET_student k db
  = (Response 200
       (JsonObject
          (<["matric_number" := JStr k]>
             (<["first_name" := JStr (Row.first_name row)]>
                (<["last_name" := JStr (Row.last_name row)]>
                   (<["email" := json_of_pyval (Row.email row)]> ∅))))), db)
  ∧ (∀ k', (better_app.GET_student k' db).2 = db
           ∧ ∀ e, (better_app.GET_student k' db).1 ≠ Unhandled e).
Proof.
  intros E. split.
  - by rewrite GET_student_run, E.
  - intros k'. rewrite GET_student_run. by destruct (db !! k').
Qed.

Lemma GET_student_answers_the_stored_row_witness :
  one_student !! "21cg029882" = Some adebola
  ∧ better_app.GET_student "21cg029882" one_student
    = (Response 200
         (JsonObject
            (<["matric_number" := JStr "21cg029882"]>
               (<["first_name" := JStr "Adebola"]>
                  (<["last_name" := JStr "Odufuwa"]>
                     (<["email" := JNull]> ∅))))), one_student).
Proof.
  split; [reflexivity|].
  apply (proj1 (GET_student_answers_the_stored_row one_student "21cg029882" adebola
                  ltac:(reflexivity))).
Defined.

(** ** The update view and the request body *)

Lemma validate_optional_str_sent (j : json) (v : pyval) :
  validate_optional_str (Some j) = Some v ↔ j = json_of_pyval v.
Proof.
  split.
  - destruct j; simpl; intros H; by simplify_eq.
  - intros ->. by destruct v.
Qed.

Lemma StudentUpdate_validate_dump (body : gmap string json) (P : StudentUpdate.t)
    (key : string) (v : pyval) :
  StudentUpdate.model_validate body = Some P →
  (key, v) ∈ StudentUpdate.model_dump true P
  ↔ key ∈ StudentUpdate.model_fields ∧ body !! key = Some (json_of_pyval v).
Proof.
  unfold StudentUpdate.model_validate.
  destruct (validate_optional_str (body !! "first_name")) as [f|] eqn:Ef; [|done].
  destruct (validate_optional_str (body !! "last_name")) as [l|] eqn:El; [|done].
  destruct (validate_optional_str (body !! "email")) as [e|] eqn:Ee; [|done].
  destruct (validate_optional_str (body !! "password")) as [p|] eqn:Ep; [|done].
  simpl. intros [= <-]. unfold StudentUpdate.model_dump. simpl.
  rewrite list_elem_of_filter. simpl. split.
  - intros [[?|[Hdecl [j Hj]%elem_of_dom]%elem_of_filter] Hin]; [done|].
    split; [done|]. rewrite Hj. f_equal. apply validate_optional_str_sent.
    elem_of_literal Hin; simplify_eq; by rewrite <- Hj.
  - intros [Hdecl Hsent].
    assert (validate_optional_str (body !! key) = Some v) as Hv.
    { rewrite Hsent. by apply validate_optional_str_sent. }
    split.
    + right. apply elem_of_filter. split; [done|]. apply elem_of_dom. by eexists.
    + unfold StudentUpdate.model_fields in Hdecl.
      elem_of_literal Hdecl; rewrite Hv in *; simplify_eq; repeat constructor.
Qed.

(** X4. After validation, the dump of an update view with exclude_unset holds
    exactly what the caller sent: an item is dumped exactly when its key is a
    declared field that the body holds, with the value of the body, a JSON
    null read as None; a field the body does not hold is never dumped, a
    field sent as null is. *)
Theorem model_dump_exclude_unset_is_what_was_sent (body : gmap string json)
    (P : StudentUpdate.t) :
  StudentUpdate.model_validate body = Some P →
  (∀ key v, (key, v) ∈ StudentUpdate.model_dump true P
            ↔ key ∈ StudentUpdate.model_fields ∧ body !! key = Some (json_of_pyval v))
  ∧ (∀ key, body !! key = None → key ∉ (StudentUpdate.model_dump true P).*1)
  ∧ (∀ key, key ∈ StudentUpdate.model_fields → body !! key = Some JNull →
            (key, None) ∈ StudentUpdate.model_dump true P).
Proof.
  intros Hvalid. split; [|split].
  - intros key v. by apply StudentUpdate_validate_dump.
  - intros key Hnone ([key' v] & -> & Hin)%list_elem_of_fmap. simpl in Hnone.
    apply (StudentUpdate_validate_dump body P key' v Hvalid) in Hin as [_ Hin].
    by rewrite Hnone in Hin.
  - intros key Hdecl Hnull. by apply (StudentUpdate_validate_dump body P key None Hvalid).
Qed.

Lemma model_dump_exclude_unset_is_what_was_sent_witness :
  StudentUpdate.model_validate {["email" := JNull]} = Some null_email
  ∧ ("email", None) ∈ StudentUpdate.model_dump true null_email.
Proof.
  split; [by vm_compute|].
  apply (proj2 (proj2 (model_dump_exclude_unset_is_what_was_sent
                         {["email" := JNull]} null_email ltac:(by vm_compute))) "email");
    [unfold StudentUpdate.model_fields; repeat constructor|reflexivity].
Defined.

(** ** PATCH on an existing row *)

Lemma of_row_ext (k : string) (r1 r2 : Row.t) :
  (∀ key, getattr (of_row k r1) key = getattr (of_row k r2) key) → r1 = r2.
Proof.
  intros H. destruct r1 as [f1 l1 e1 p1], r2 as [f2 l2 e2 p2].
  pose proof (H "first_name") as Hf. pose proof (H "last_name") as Hl.
  pose proof (H "email") as He. pose proof (H "password") as Hp.
  vm_compute in Hf, Hl, He, Hp. by simplify_eq.
Qed.

Lemma path_operation_update_run (db : gmap string Row.t) (k : string)
    (P : StudentUpdate.t) :
  path_operation response_StudentRead (better_app.update_student k P) db
  = match with_Session (crud.update_student k P) db with
    | (Ok (Some o), db') =>
        (match response_StudentRead o with
         | Ok c => Response 200 c
         | Raise e => Unhandled e
         end, db')
    | (Ok None, db') =>
        (Response 404 (JsonObject {["detail" := JStr "Student not found"]}), db')
    | (Raise e, db') =>
        (match e with
         | HTTPException status_code detail =>
             Response status_code (JsonObject {["detail" := JStr detail]})
         | _ => Unhandled e
         end, db')
    end.
Proof.
  unfold path_operation, with_Session, better_app.update_student, mbind, M_bind.
  destruct (crud.update_student k P (Session.open db)) as [[[o|]|e] s]; simpl;
    try done; by destruct e.
Qed.

(** The two answers of PATCH for a valid body and an existing row. *)
Lemma PATCH_student_present (db : gmap string Row.t) (k : string)
    (body : gmap string json) (P : StudentUpdate.t) (row : Row.t) :
  StudentUpdate.model_validate body = Some P →
  db !! k = Some row →
  (∃ row',
      better_app.PATCH_student k body db
      = (Response 200 (JsonObject (StudentRead.model_dump (read_of_row k row'))),
         <[k := row']> db)
      ∧ (∀ key v, (key, v) ∈ StudentUpdate.model_dump true P →
                  getattr (of_row k row') key = Some v)
      ∧ (∀ key, key ∉ (StudentUpdate.model_dump true P).*1 →
                getattr (of_row k row') key = getattr (of_row k row) key))
  ∨ (better_app.PATCH_student k body db = (Unhandled IntegrityError, db)
     ∧ ∃ key, key ≠ "email" ∧ (key, None) ∈ StudentUpdate.model_dump true P).
Proof.
  intros Hvalid E. unfold better_app.PATCH_student, with_body. rewrite Hvalid.
  rewrite path_operation_update_run.
  destruct (update_student_outcome db k row P E)
    as [(row' & -> & Hin & Hout)|(-> & Hnull)]; [left|right; by split].
  exists row'. by rewrite response_StudentRead_of_row.
Qed.

Lemma StudentUpdate_validate_unsent (body : gmap string json) :
  (∀ f, f ∈ StudentUpdate.model_fields → body !! f = None) →
  ∃ P, StudentUpdate.model_validate body = Some P
       ∧ StudentUpdate.model_dump true P = [].
Proof.
  intros Hunsent.
  assert (∃ P, StudentUpdate.model_validate body = Some P) as [P Hvalid].
  { unfold StudentUpdate.model_validate.
    rewrite !Hunsent by (unfold StudentUpdate.model_fields; repeat constructor).
    simpl. by eexists. }
  exists P. split; [done|].
  destruct (StudentUpdate.model_dump true P) as [|[key v] items] eqn:Edump; [done|].
  assert ((key, v) ∈ StudentUpdate.model_dump true P) as Hin
    by (rewrite Edump; left).
  apply (StudentUpdate_validate_dump body P key v Hvalid) in Hin as [Hdecl Hsent].
  by rewrite (Hunsent key Hdecl) in Hsent.
Qed.

(** X5. A PATCH whose body holds none of the four fields of the update view,
    the empty object or one with only other keys such as matric_number, is
    valid and changes nothing: on an existing student it answers 200 with the
    read view of the row as stored, and the table stays the same. *)
Theorem PATCH_without_declared_fields_is_a_noop (db : gmap string Row.t) (k : string)
    (body : gmap string json) (row : Row.t) :
  (∀ f, f ∈ StudentUpdate.model_fields → body !! f = None) →
  db !! k = Some row →
  better_app.PATCH_student k body db
  = (Response 200 (JsonObject (StudentRead.model_dump (read_of_row k row))), db).
Proof.
  intros Hunsent E.
  destruct (StudentUpdate_validate_unsent body Hunsent) as (P & Hvalid & Hdump).
  destruct (PATCH_student_present db k body P row Hvalid E)
    as [(row' & -> & _ & Hout)|(_ & key & _ & Hin)].
  - rewrite Hdump in Hout.
    assert (row' = row) as ->.
    { apply (of_row_ext k). intros key. apply Hout. apply not_elem_of_nil. }
    by rewrite (insert_id db k row E).
  - rewrite Hdump in Hin. by apply elem_of_nil in Hin.
Qed.

Lemma PATCH_without_declared_fields_is_a_noop_witness :
  (∀ f, f ∈ StudentUpdate.model_fields →
        ({["matric_number" := JStr "21cg029999"]} : gmap string json) !! f = None)
  ∧ one_student !! "21cg029882" = Some adebola
  ∧ better_app.PATCH_student "21cg029882" {["matric_number" := JStr "21cg029999"]}
      one_student
    = (Response 200 (JsonObject (StudentRead.model_dump
                                   (read_of_row "21cg029882" adebola))), one_student).
Proof.
  assert (∀ f, f ∈ StudentUpdate.model_fields →
               ({["matric_number" := JStr "21cg029999"]} : gmap string json) !! f = None)
    as H.
  { intros f Hf. unfold StudentUpdate.model_fields in Hf.
    elem_of_literal Hf; reflexivity. }
  split; [exact H|]. split; [reflexivity|].
  exact (PATCH_without_declared_fields_is_a_noop one_student "21cg029882"
           {["matric_number" := JStr "21cg029999"]} adebola H ltac:(reflexivity)).
Defined.

(** X6. For a valid body and an existing student, PATCH ends in the unhandled
    integrity error, with the table unchanged, when the body sends null for
    first_name, last_name or password; when it sends null for none of the
    three it answers 200 and stores the patched row under the same key. *)
Theorem PATCH_fails_exactly_on_null_for_not_null_column (db : gmap string Row.t)
    (k : string) (body : gmap string json) (P : StudentUpdate.t) (row : Row.t) :
  StudentUpdate.model_validate body = Some P →
  db !! k = Some row →
  ((∃ f, f ∈ not_null_update_fields ∧ body !! f = Some JNull) →
   better_app.PATCH_student k body db = (Unhandled IntegrityError, db))
  ∧ ((∀ f, f ∈ not_null_update_fields → body !! f ≠ Some JNull) →
     ∃ row', better_app.PATCH_student k body db
             = (Response 200 (JsonObject (StudentRead.model_dump (read_of_row k row'))),
                <[k := row']> db)).
Proof.
  intros Hvalid E.
  destruct (PATCH_student_present db k body P row Hvalid E)
    as [(row' & Hrun & Hin & _)|(Hrun & key & Hne & Hnull)]; split.
  - intros (f & Hf & Hsent). exfalso.
    assert ((f, None) ∈ StudentUpdate.model_dump true P) as Hdumped.
    { apply (StudentUpdate_validate_dump body P f None Hvalid). split; [|done].
      unfold not_null_update_fields in Hf. unfold StudentUpdate.model_fields.
      elem_of_literal Hf; repeat constructor. }
    apply (getattr_of_row_not_null k row' f); [|by apply Hin].
    unfold not_null_update_fields in Hf. by elem_of_literal Hf.
  - intros _. by exists row'.
  - by intros _.
  - intros Hnone. exfalso.
    apply (StudentUpdate_validate_dump body P key None Hvalid) in Hnull
      as [Hdecl Hsent].
    apply (Hnone key); [|done].
    unfold StudentUpdate.model_fields in Hdecl. unfold not_null_update_fields.
    elem_of_literal Hdecl; try done; repeat constructor.
Qed.

Lemma PATCH_fails_exactly_on_null_for_not_null_column_witness :
  StudentUpdate.model_validate {["first_name" := JNull]} = Some null_first_name
  ∧ one_student !! "21cg029882" = Some adebola
  ∧ better_app.PATCH_student "21cg029882" {["first_name" := JNull]} one_student
    = (Unhandled IntegrityError, one_student).
Proof.
  split; [by vm_compute|]. split; [reflexivity|].
  apply (proj1 (PATCH_fails_exactly_on_null_for_not_null_column one_student "21cg029882"
                  {["first_name" := JNull]} null_first_name adebola
                  ltac:(by vm_compute) ltac:(reflexivity))).
  exists "first_name". split; [repeat constructor|reflexivity].
Defined.

(** ** Repeating and composing updates *)

(** X7. The partial update is idempotent: running it a second time with the
    same key and payload on the table the first run left gives the same
    result and leaves that table as it is, whether the first run updated the
    row, found no row, or raised; the same holds for the PATCH route. *)
Theorem update_student_is_idempotent (db : gmap string Row.t) (k : string)
    (P : StudentUpdate.t) (body : gmap string json) :
  with_Session (crud.update_student k P) (with_Session (crud.update_student k P) db).2
  = with_Session (crud.update_student k P) db
  ∧ better_app.PATCH_student k body (better_app.PATCH_student k body db).2
    = better_app.PATCH_student k body db.
Proof.
  assert (∀ P, with_Session (crud.update_student k P)
                 (with_Session (crud.update_student k P) db).2
               = with_Session (crud.update_student k P) db) as Hgateway.
  { clear P. intros P. destruct (db !! k) as [row|] eqn:E.
    - destruct (update_student_outcome db k row P E)
        as [(row' & Hrun & Hin & Hout)|(Hrun & _)]; rewrite Hrun; simpl; [|done].
      assert (<[k := row']> db !! k = Some row') as E' by apply lookup_insert_eq.
      destruct (update_student_outcome _ k row' P E')
        as [(row'' & Hrun' & Hin' & Hout')|(_ & key & Hne & Hnull)].
      + rewrite Hrun'. assert (row'' = row') as ->; [|by rewrite insert_insert_eq].
        apply (of_row_ext k). intros key.
        destruct (decide (key ∈ (StudentUpdate.model_dump true P).*1)) as [Hmem|Hnot].
        * apply list_elem_of_fmap in Hmem as ([key' v] & -> & Hmem). simpl.
          by rewrite (Hin' key' v Hmem), (Hin key' v Hmem).
        * by apply Hout'.
      + by destruct (getattr_of_row_not_null k row' key Hne (Hin key None Hnull)).
    - rewrite (update_student_absent db k P E). simpl.
      by rewrite (update_student_absent db k P E). }
  split; [apply Hgateway|].
  unfold better_app.PATCH_student, with_body.
  destruct (StudentUpdate.model_validate body) as [P'|]; [|done].
  rewrite !path_operation_update_run.
  pose proof (Hgateway P') as Hsame.
  destruct (with_Session (crud.update_student k P') db) as [[[o|]|e] db1] eqn:Hrun;
    simpl in *; by rewrite Hsame.
Qed.

(** X8. What a successful PATCH answers is what a GET of the same key answers
    next: if PATCH answers 200 with some body, GET on the table it leaves
    answers 200 with that same body, and changes nothing. *)
Theorem GET_after_PATCH_answers_the_same (db db' : gmap string Row.t) (k : string)
    (body : gmap string json) (c : content) :
  better_app.PATCH_student k body db = (Response 200 c, db') →
  better_app.GET_student k db' = (Response 200 c, db').
Proof.
  intros Hpatch.
  destruct (StudentUpdate.model_validate body) as [P|] eqn:Hvalid.
  - destruct (db !! k) as [row|] eqn:E.
    + destruct (PATCH_student_present db k body P row Hvalid E)
        as [(row' & Hrun & _)|(Hrun & _)]; rewrite Hrun in Hpatch; simplify_eq.
      by rewrite GET_student_run, lookup_insert_eq.
    + unfold better_app.PATCH_student, with_body in Hpatch.
      rewrite Hvalid, path_operation_update_run,
        (update_student_absent db k P E) in Hpatch.
      by simplify_eq.
  - unfold better_app.PATCH_student, with_body in Hpatch.
    rewrite Hvalid in Hpatch. by simplify_eq.
Qed.

Lemma GET_after_PATCH_answers_the_same_witness :
  better_app.PATCH_student "21cg029882" {["email" := JStr "adeboladuf@gmail.com"]}
    one_student
  = (Response 200 (JsonObject (StudentRead.model_dump
                                 (StudentRead.mk "21cg029882" "Adebola" "Odufuwa"
                                    (Some "adeboladuf@gmail.com")))),
     {["21cg029882" := Row.mk "Adebola" "Odufuwa" (Some "adeboladuf@gmail.com") "password"]})
  ∧ better_app.GET_student "21cg029882"
      {["21cg029882" := Row.mk "Adebola" "Odufuwa" (Some "adeboladuf@gmail.com") "password"]}
    = (Response 200 (JsonObject (StudentRead.model_dump
                                   (StudentRead.mk "21cg029882" "Adebola" "Odufuwa"
                                      (Some "adeboladuf@gmail.com")))),
       {["21cg029882" := Row.mk "Adebola" "Odufuwa" (Some "adeboladuf@gmail.com") "password"]}).
Proof.
  split; [by vm_compute|].
  apply (GET_after_PATCH_answers_the_same one_student _ "21cg029882"
           {["email" := JStr "adeboladuf@gmail.com"]}).
  by vm_compute.
Defined.

(** X9. What a successful POST answers is what a GET of the created key
    answers next: if POST answers 200 with some body, the request body was a
    valid creation view, and GET of its matric_number on the table POST left
    answers 200 with that same body. *)
Theorem GET_after_POST_answers_the_same (db db' : gmap string Row.t)
    (body : gmap string json) (c : content) :
  better_app.POST_student body db = (Response 200 c, db') →
  ∃ student,
    StudentCreate.model_validate body = Some student
    ∧ better_app.GET_student (StudentCreate.matric_number student) db'
      = (Response 200 c, db').
Proof.
  intros Hpost. unfold better_app.POST_student, with_body in Hpost.
  destruct (StudentCreate.model_validate body) as [student|] eqn:Hvalid; [|done].
  exists student. split; [done|].
  unfold path_operation, better_app.create_student in Hpost.
  rewrite create_students_run in Hpost.
  destruct (db !! StudentCreate.matric_number student) eqn:E; [done|].
  rewrite response_StudentRead_of_row in Hpost. simplify_eq.
  by rewrite GET_student_run, lookup_insert_eq.
Qed.

Lemma GET_after_POST_answers_the_same_witness :
  better_app.POST_student adebola_json ∅
  = (Response 200 (JsonObject (StudentRead.model_dump (read_of_create adebola_create))),
     {["21cg029882" := row_of_create adebola_create]})
  ∧ ∃ student,
      StudentCreate.model_validate adebola_json = Some student
      ∧ better_app.GET_student (StudentCreate.matric_number student)
          {["21cg029882" := row_of_create adebola_create]}
        = (Response 200 (JsonObject (StudentRead.model_dump (read_of_create adebola_create))),
           {["21cg029882" := row_of_create adebola_create]}).
Proof.
  split; [by vm_compute|].
  apply (GET_after_POST_answers_the_same ∅ _ adebola_json). by vm_compute.
Defined.

(** X10. Two successful partial updates of a student compose field by field,
    the later one winning: in the entity the second returns, a field the
    second payload sets holds its value; a field only the first payload sets
    holds the first payload's value; a field neither sets holds what was
    stored before both. Only the row of that key is written. *)
Theorem later_update_wins (db db1 db2 : gmap string Row.t) (k : string) (row : Row.t)
    (P1 P2 : StudentUpdate.t) (u1 u2 : Student.t) :
  db !! k = Some row →
  with_Session (crud.update_student k P1) db = (Ok (Some u1), db1) →
  with_Session (crud.update_student k P2) db1 = (Ok (Some u2), db2) →
  (∀ key v, (key, v) ∈ StudentUpdate.model_dump true P2 → getattr u2 key = Some v)
  ∧ (∀ key v, key ∉ (StudentUpdate.model_dump true P2).*1 →
              (key, v) ∈ StudentUpdate.model_dump true P1 → getattr u2 key = Some v)
  ∧ (∀ key, key ∉ (StudentUpdate.model_dump true P2).*1 →
            key ∉ (StudentUpdate.model_dump true P1).*1 →
            getattr u2 key = getattr (of_row k row) key)
  ∧ (∃ row2, u2 = of_row k row2 ∧ db2 = <[k := row2]> db).
Proof.
  intros E Hrun1 Hrun2.
  destruct (update_student_outcome db k row P1 E)
    as [(row1 & Hrun1' & Hin1 & Hout1)|(Hrun1' & _)];
    rewrite Hrun1' in Hrun1; simplify_eq.
  assert (<[k := row1]> db !! k = Some row1) as E1 by apply lookup_insert_eq.
  destruct (update_student_outcome _ k row1 P2 E1)
    as [(row2 & Hrun2' & Hin2 & Hout2)|(Hrun2' & _)];
    rewrite Hrun2' in Hrun2; simplify_eq.
  split; [done|]. split; [|split].
  - intros key v Hnot Hmem. rewrite (Hout2 key Hnot). by apply Hin1.
  - intros key Hnot2 Hnot1. rewrite (Hout2 key Hnot2). by apply Hout1.
  - exists row2. by rewrite insert_insert_eq.
Qed.

Lemma later_update_wins_witness :
  one_student !! "21cg029882" = Some adebola
  ∧ with_Session (crud.update_student "21cg029882" email_patch) one_student
    = (Ok (Some (of_row "21cg029882"
                   (Row.mk "Adebola" "Odufuwa" (Some "adeboladuf@gmail.com") "password"))),
       {["21cg029882" :=
           Row.mk "Adebola" "Odufuwa" (Some "adeboladuf@gmail.com") "password"]})
  ∧ with_Session (crud.update_student "21cg029882" null_email)
      {["21cg029882" :=
          Row.mk "Adebola" "Odufuwa" (Some "adeboladuf@gmail.com") "password"]}
    = (Ok (Some (of_row "21cg029882" adebola)), one_student)
  ∧ (∀ key v, (key, v) ∈ StudentUpdate.model_dump true null_email →
              getattr (of_row "21cg029882" adebola) key = Some v).
Proof.
  split; [reflexivity|]. split; [by vm_compute|]. split; [by vm_compute|].
  apply (later_update_wins one_student _ one_student "21cg029882" adebola
           email_patch null_email _ (of_row "21cg029882" adebola)
           ltac:(reflexivity) ltac:(by vm_compute) ltac:(by vm_compute)).
Defined.

(** X11. A PATCH that sends a new password and none of the other three fields
    stores the new password in the row, keeps first_name, last_name and email
    as they were, and answers 200 with the very body a GET of the student
    answered before the change: the answer does not show that the password
    changed. *)
Theorem password_change_is_stored_but_not_shown (db : gmap string Row.t) (k : string)
    (body : gmap string json) (row : Row.t) (s : string) :
  db !! k = Some row →
  body !! "password" = Some (JStr s) →
  body !! "first_name" = None →
  body !! "last_name" = None →
  body !! "email" = None →
  better_app.PATCH_student k body db
  = (Response 200 (JsonObject (StudentRead.model_dump (read_of_row k row))),
     <[k := Row.mk (Row.first_name row) (Row.last_name row) (Row.email row) s]> db)
  ∧ (better_app.PATCH_student k body db).1 = (better_app.GET_student k db).1.
Proof.
  intros E Hp Hf Hl He.
  assert (∃ P, StudentUpdate.model_validate body = Some P) as [P Hvalid].
  { unfold StudentUpdate.model_validate. rewrite Hp, Hf, Hl, He. simpl. by eexists. }
  assert (better_app.PATCH_student k body db
          = (Response 200 (JsonObject (StudentRead.model_dump (read_of_row k row))),
             <[k := Row.mk (Row.first_name row) (Row.last_name row) (Row.email row) s]> db))
    as Hpatch.
  { destruct (PATCH_student_present db k body P row Hvalid E)
      as [(row' & -> & Hin & Hout)|(_ & key & Hne & Hnull)].
    - assert (row' = Row.mk (Row.first_name row) (Row.last_name row) (Row.email row) s)
        as ->; [|done].
      apply (of_row_ext k). intros key.
      destruct (decide (key = "password")) as [->|Hne].
      + rewrite (Hin "password" (Some s)); [done|].
        apply (StudentUpdate_validate_dump body P "password" (Some s) Hvalid).
        split; [unfold StudentUpdate.model_fields; repeat constructor|done].
      + rewrite Hout.
        * destruct row as [f l e p]. unfold getattr. simpl.
          repeat case_decide; by simplify_eq.
        * intros ([key' v] & -> & Hmem)%list_elem_of_fmap. simpl in Hne.
          apply (StudentUpdate_validate_dump body P key' v Hvalid) in Hmem
            as [Hdecl Hsent].
          unfold StudentUpdate.model_fields in Hdecl.
          elem_of_literal Hdecl; by simplify_eq.
    - apply (StudentUpdate_validate_dump body P key None Hvalid) in Hnull
        as [Hdecl Hsent].
      unfold StudentUpdate.model_fields in Hdecl.
      elem_of_literal Hdecl; by simplify_eq. }
  split; [done|]. by rewrite Hpatch, GET_student_run, E.
Qed.

Lemma password_change_is_stored_but_not_shown_witness :
  one_student !! "21cg029882" = Some adebola
  ∧ ({["password" := JStr "secret"]} : gmap string json) !! "password"
    = Some (JStr "secret")
  ∧ ({["password" := JStr "secret"]} : gmap string json) !! "first_name" = None
  ∧ ({["password" := JStr "secret"]} : gmap string json) !! "last_name" = None
  ∧ ({["password" := JStr "secret"]} : gmap string json) !! "email" = None
  ∧ (better_app.PATCH_student "21cg029882" {["password" := JStr "secret"]}
       one_student).1
    = (better_app.GET_student "21cg029882" one_student).1.
Proof.
  repeat (split; [reflexivity|]).
  apply (password_change_is_stored_but_not_shown one_student "21cg029882"
           {["password" := JStr "secret"]} adebola "secret");
    reflexivity.
Defined.

(** ** Rows that a request does not address *)

Lemma DELETE_student_run (db : gmap string Row.t) (k : string) :
  better_app.DELETE_student k db
  = match db !! k with
    | Some _ => (Response 200 (JsonObject {["ok" := JBool true]}), delete k db)
    | None => (Response 404 (JsonObject {["detail" := JStr "Student not found"]}), db)
    end.
Proof.
  pose proof (delete_student_run db k) as Hrun.
  unfold better_app.DELETE_student, path_operation, with_Session,
    better_app.delete_student, mbind, M_bind in *.
  destruct (crud.delete_student k (Session.open db)) as [r s].
  destruct (db !! k); simplify_eq; simpl; by f_equal.
Qed.

Lemma POST_student_run (db : gmap string Row.t) (body : gmap string json) :
  better_app.POST_student body db
  = match StudentCreate.model_validate body with
    | None => (RequestValidationError, db)
    | Some student =>
        match db !! StudentCreate.matric_number student with
        | Some _ => (Unhandled IntegrityError, db)
        | None =>
            (Response 200 (JsonObject (StudentRead.model_dump (read_of_create student))),
             <[StudentCreate.matric_number student := row_of_create student]> db)
        end
    end.
Proof.
  unfold better_app.POST_student, with_body.
  destruct (StudentCreate.model_validate body) as [student|]; [|done].
  unfold path_operation, better_app.create_student. rewrite create_students_run.
  destruct (db !! StudentCreate.matric_number student); [done|].
  by destruct student.
Qed.

(** X12. A request writes no row but the one it addresses: after PATCH or
    DELETE of one key, and after POST of a body whose matric_number is that
    key, every row stored under another key is exactly as it was, present or
    absent. *)
Theorem requests_leave_other_rows_alone (db : gmap string Row.t) (k k' : string)
    (body : gmap string json) :
  k' ≠ k →
  (better_app.PATCH_student k body db).2 !! k' = db !! k'
  ∧ (better_app.DELETE_student k db).2 !! k' = db !! k'
  ∧ (∀ student,
        StudentCreate.model_validate body = Some student →
        StudentCreate.matric_number student = k →
        (better_app.POST_student body db).2 !! k' = db !! k').
Proof.
  intros Hne. split; [|split].
  - unfold better_app.PATCH_student, with_body.
    destruct (StudentUpdate.model_validate body) as [P|]; [|done].
    rewrite path_operation_update_student.
    destruct (db !! k) as [row|] eqn:E.
    + destruct (update_student_outcome db k row P E) as [(row' & -> & _)|(-> & _)];
        [|done].
      simpl. by apply lookup_insert_ne.
    + by rewrite (update_student_absent db k P E).
  - rewrite DELETE_student_run. destruct (db !! k); [|done].
    simpl. by apply lookup_delete_ne.
  - intros student Hvalid <-. rewrite POST_student_run, Hvalid.
    destruct (db !! StudentCreate.matric_number student); [done|].
    simpl. by apply lookup_insert_ne.
Qed.

Lemma requests_leave_other_rows_alone_witness :
  "21cg029883" ≠ "21cg029882"
  ∧ (better_app.DELETE_student "21cg029882" two_students).2 !! "21cg029883"
    = two_students !! "21cg029883".
Proof.
  assert ("21cg029883" ≠ "21cg029882") as H by done.
  split; [exact H|].
  apply (requests_leave_other_rows_alone two_students "21cg029882" "21cg029883" ∅ H).
Defined.

(** ** Creating and deleting *)

(** X13. Deleting a student right after creating it gives back the table from
    before the creation: for a free key, the gateway delete of the created
    key succeeds on the table the creation left and restores the old table,
    and the same holds for POST followed by DELETE. *)
Theorem delete_undoes_create (db : gmap string Row.t) (student : StudentCreate.t)
    (body : gmap string json) :
  db !! StudentCreate.matric_number student = None →
  with_Session (crud.delete_student (StudentCreate.matric_number student))
    (with_Session (crud.create_students student) db).2
  = (Ok (PyStr "ok"), db)
  ∧ (StudentCreate.model_validate body = Some student →
     better_app.DELETE_student (StudentCreate.matric_number student)
       (better_app.POST_student body db).2
     = (Response 200 (JsonObject {["ok" := JBool true]}), db)).
Proof.
  intros E. split.
  - rewrite create_students_run, E. simpl.
    rewrite delete_student_run, lookup_insert_eq, delete_insert_eq.
    by rewrite (delete_id db _ E).
  - intros Hvalid. rewrite POST_student_run, Hvalid, E. simpl.
    rewrite DELETE_student_run, lookup_insert_eq, delete_insert_eq.
    by rewrite (delete_id db _ E).
Qed.

Lemma delete_undoes_create_witness :
  (∅ : gmap string Row.t) !! StudentCreate.matric_number adebola_create = None
  ∧ with_Session (crud.delete_student (StudentCreate.matric_number adebola_create))
      (with_Session (crud.create_students adebola_create) ∅).2
    = (Ok (PyStr "ok"), ∅).
Proof.
  split; [reflexivity|].
  apply (delete_undoes_create ∅ adebola_create adebola_json). reflexivity.
Defined.

(** X14. Deleting is final and a repeated delete is reported: whatever the
    first DELETE of a key did, a second DELETE of that key answers 404 with
    the detail Student not found and changes nothing, and the gateway delete
    hands back None the second time. *)
Theorem second_DELETE_answers_404 (db : gmap string Row.t) (k : string) :
  better_app.DELETE_student k (better_app.DELETE_student k db).2
  = (Response 404 (JsonObject {["detail" := JStr "Student not found"]}),
     (better_app.DELETE_student k db).2)
  ∧ with_Session (crud.delete_student k) (with_Session (crud.delete_student k) db).2
    = (Ok PyNone, (with_Session (crud.delete_student k) db).2).
Proof.
  split.
  - rewrite (DELETE_student_run db k). destruct (db !! k) eqn:E; simpl.
    + by rewrite DELETE_student_run, lookup_delete_eq.
    + by rewrite DELETE_student_run, E.
  - rewrite (delete_student_run db k). destruct (db !! k) eqn:E; simpl.
    + by rewrite delete_student_run, lookup_delete_eq.
    + by rewrite delete_student_run, E.
Qed.

(** X15. The number of rows: a creation that finds the key free adds exactly
    one row, a delete that finds the key removes exactly one, and a partial
    update never changes how many rows there are. *)
Theorem row_count (db : gmap string Row.t) (student : StudentCreate.t) (k : string)
    (row : Row.t) (P : StudentUpdate.t) :
  db !! StudentCreate.matric_number student = None →
  db !! k = Some row →
  size (with_Session (crud.create_students student) db).2 = S (size db)
  ∧ S (size (with_Session (crud.delete_student k) db).2) = size db
  ∧ size (with_Session (crud.update_student k P) db).2 = size db.
Proof.
  intros Efree E. split; [|split].
  - rewrite create_students_run, Efree. simpl. by apply map_size_insert_None.
  - rewrite delete_student_run, E. simpl.
    rewrite map_size_delete_Some by (by rewrite E).
    assert (size db ≠ 0%nat); [|lia].
    intros ->%map_size_empty_inv. by rewrite lookup_empty in E.
  - destruct (update_student_outcome db k row P E) as [(row' & -> & _)|(-> & _)];
      [|done].
    simpl. apply map_size_insert_Some. by rewrite E.
Qed.

Lemma row_count_witness :
  one_student !! StudentCreate.matric_number
                   (StudentCreate.mk "21cg029883" "Oluwaferanmi" "Odufuwa" None "password")
  = None
  ∧ one_student !! "21cg029882" = Some adebola
  ∧ size (with_Session
            (crud.create_students
               (StudentCreate.mk "21cg029883" "Oluwaferanmi" "Odufuwa" None "password"))
            one_student).2
    = S (size one_student).
Proof.
  split; [reflexivity|]. split; [reflexivity|].
  apply (row_count one_student
           (StudentCreate.mk "21cg029883" "Oluwaferanmi" "Odufuwa" None "password")
           "21cg029882" adebola email_patch); reflexivity.
Defined.

(** ** Request validation *)

Lemma validate_str_None (v : option json) :
  validate_str v = None ↔ ∀ s, v ≠ Some (JStr s).
Proof.
  split.
  - intros H s ->. done.
  - intros H. destruct v as [[]|]; try done. by destruct (H s).
Qed.

Lemma validate_optional_str_None (v : option json) :
  validate_optional_str v = None
  ↔ ∃ j, v = Some j ∧ j ≠ JNull ∧ ∀ s, j ≠ JStr s.
Proof.
  split.
  - intros H. destruct v as [j|]; [|done]. exists j. split; [done|].
    destruct j; by simplify_eq.
  - intros (j & -> & Hnull & Hstr). destruct j; try done. by destruct (Hstr s).
Qed.

Lemma StudentCreate_model_validate_None (body : gmap string json) :
  StudentCreate.model_validate body = None
  ↔ (∃ f, f ∈ required_fields ∧ ∀ s, body !! f ≠ Some (JStr s))
    ∨ (∃ j, body !! "email" = Some j ∧ j ≠ JNull ∧ ∀ s, j ≠ JStr s).
Proof.
  unfold StudentCreate.model_validate, required_fields.
  destruct (validate_str (body !! "matric_number")) as [m|] eqn:Em;
    [|split; [intros _|done]; left; exists "matric_number";
      split; [repeat constructor|by apply validate_str_None]].
  destruct (validate_str (body !! "first_name")) as [f|] eqn:Ef;
    [|split; [intros _|done]; left; exists "first_name";
      split; [repeat constructor|by apply validate_str_None]].
  destruct (validate_str (body !! "last_name")) as [l|] eqn:El;
    [|split; [intros _|done]; left; exists "last_name";
      split; [repeat constructor|by apply validate_str_None]].
  destruct (validate_optional_str (body !! "email")) as [e|] eqn:Ee;
    [|split; [intros _|done]; right; by apply validate_optional_str_None].
  destruct (validate_str (body !! "password")) as [p|] eqn:Ep;
    [|split; [intros _|done]; left; exists "password";
      split; [repeat constructor|by apply validate_str_None]].
  simpl. split; [done|].
  intros [(g & Hg & Hbad%validate_str_None)|Hbad%validate_optional_str_None];
    [|by rewrite Hbad in Ee].
  elem_of_literal Hg; by simplify_eq.
Qed.

(** X16. POST answers 422 exactly when the body does not fit the creation
    view: matric_number, first_name, last_name or password is missing or is
    not a string, or email is present and neither a string nor null. A
    request answered 422 creates no row. A body without email is accepted. *)
Theorem POST_answers_422_exactly_on_a_misfit (db : gmap string Row.t)
    (body : gmap string json) :
  ((better_app.POST_student body db).1 = RequestValidationError
   ↔ (∃ f, f ∈ required_fields ∧ ∀ s, body !! f ≠ Some (JStr s))
     ∨ (∃ j, body !! "email" = Some j ∧ j ≠ JNull ∧ ∀ s, j ≠ JStr s))
  ∧ ((better_app.POST_student body db).1 = RequestValidationError →
     (better_app.POST_student body db).2 = db).
Proof.
  rewrite <- StudentCreate_model_validate_None, POST_student_run.
  destruct (StudentCreate.model_validate body) as [student|]; [|done].
  destruct (db !! StudentCreate.matric_number student); by split.
Qed.

Lemma StudentUpdate_model_validate_None (body : gmap string json) :
  StudentUpdate.model_validate body = None
  ↔ ∃ f j, f ∈ StudentUpdate.model_fields ∧ body !! f = Some j
           ∧ j ≠ JNull ∧ ∀ s, j ≠ JStr s.
Proof.
  unfold StudentUpdate.model_validate, StudentUpdate.model_fields.
  destruct (validate_optional_str (body !! "first_name")) as [f|] eqn:Ef;
    [|split; [intros _|done]; apply validate_optional_str_None in Ef as (j & ? & ?);
      exists "first_name", j; split; [repeat constructor|done]].
  destruct (validate_optional_str (body !! "last_name")) as [l|] eqn:El;
    [|split; [intros _|done]; apply validate_optional_str_None in El as (j & ? & ?);
      exists "last_name", j; split; [repeat constructor|done]].
  destruct (validate_optional_str (body !! "email")) as [e|] eqn:Ee;
    [|split; [intros _|done]; apply validate_optional_str_None in Ee as (j & ? & ?);
      exists "email", j; split; [repeat constructor|done]].
  destruct (validate_optional_str (body !! "password")) as [p|] eqn:Ep;
    [|split; [intros _|done]; apply validate_optional_str_None in Ep as (j & ? & ?);
      exists "password", j; split; [repeat constructor|done]].
  simpl. split; [done|].
  intros (g & j & Hg & Hj & Hbad).
  assert (validate_optional_str (body !! g) = None) as Hnone
    by (apply validate_optional_str_None; by exists j).
  elem_of_literal Hg; by simplify_eq.
Qed.

(** X17. PATCH answers 422 exactly when the body sends one of first_name,
    last_name, email or password with a value that is neither a string nor
    null. The answer is 422 whether or not the student exists, since the body
    is validated before the row is looked up, and the table stays as it is. *)
Theorem PATCH_answers_422_exactly_on_a_misfit (db : gmap string Row.t) (k : string)
    (body : gmap string json) :
  ((better_app.PATCH_student k body db).1 = RequestValidationError
   ↔ ∃ f j, f ∈ StudentUpdate.model_fields ∧ body !! f = Some j
            ∧ j ≠ JNull ∧ ∀ s, j ≠ JStr s)
  ∧ ((better_app.PATCH_student k body db).1 = RequestValidationError →
     (better_app.PATCH_student k body db).2 = db).
Proof.
  rewrite <- StudentUpdate_model_validate_None.
  unfold better_app.PATCH_student, with_body.
  destruct (StudentUpdate.model_validate body) as [P|]; [|done].
  rewrite path_operation_update_run.
  destruct (with_Session (crud.update_student k P) db) as [[[o|]|e] db'].
  - destruct (response_StudentRead o); by split.
  - by split.
  - destruct e; by split.
Qed.

(** ** The handlers of [app.py] *)

(** X18. The handlers of app.py, which open their session themselves and
    inline the gateway code, behave as the handlers of better_app.py that go
    through crud.py: on every session each pair returns the same value or
    raises the same exception and leaves the same session state. *)
Theorem app_handlers_agree_with_better_app (s : Session.t) (student : StudentCreate.t)
    (k : string) (P : StudentUpdate.t) :
  app.create_student student s = better_app.create_student student s
  ∧ app.read_students s = better_app.read_students s
  ∧ app.read_student k s = better_app.read_student k s
  ∧ app.update_student k P s = better_app.update_student k P s
  ∧ app.delete_student k s = better_app.delete_student k s.
Proof.
  split; [done|]. split; [done|]. split; [done|].
  split; [apply app_update_student_agrees|apply app_delete_student_agrees].
Qed.

(** ** The listing after a write *)

(** X19. The listing follows the writes: after a POST answered 200 the array
    of GET /students holds the object POST answered with and is one longer
    than the table was large; after a DELETE of a key, whatever it answered,
    no object of the array carries that matric_number. *)
Theorem listing_follows_writes (db : gmap string Row.t) (k : string) :
  (∀ body o db',
      better_app.POST_student body db = (Response 200 (JsonObject o), db') →
      ∃ objs, better_app.GET_students db' = (Response 200 (JsonArray objs), db')
              ∧ o ∈ objs ∧ length objs = S (size db))
  ∧ (∀ objs db',
        better_app.GET_students (better_app.DELETE_student k db).2
        = (Response 200 (JsonArray objs), db') →
        ∀ o, o ∈ objs → o !! "matric_number" ≠ Some (JStr k)).
Proof.
  split.
  - intros body o db' Hpost. rewrite POST_student_run in Hpost.
    destruct (StudentCreate.model_validate body) as [student|]; [|done].
    destruct (db !! StudentCreate.matric_number student) eqn:E; [done|].
    simplify_eq.
    destruct (GET_students_run
                (<[StudentCreate.matric_number student := row_of_create student]> db))
      as (objs & Hget & Hlen & Hmem & _).
    exists objs. split; [done|]. split.
    + apply Hmem. exists (StudentCreate.matric_number student), (row_of_create student).
      split; [apply lookup_insert_eq|by destruct student].
    + rewrite Hlen. by apply map_size_insert_None.
  - intros objs db' Hget o Hin.
    destruct (GET_students_run (better_app.DELETE_student k db).2)
      as (objs' & Hget' & _ & Hmem & _).
    rewrite Hget' in Hget. simplify_eq.
    apply Hmem in Hin as (k' & row & Hrow & ->).
    assert (k' ≠ k) as Hne.
    { intros ->. rewrite DELETE_student_run in Hrow.
      destruct (db !! k) eqn:E; simpl in Hrow.
      - by rewrite lookup_delete_eq in Hrow.
      - by rewrite E in Hrow. }
    unfold StudentRead.model_dump. rewrite lookup_insert_eq. simpl.
    by intros [= ->].
Qed.

Lemma listing_follows_writes_witness :
  better_app.POST_student adebola_json ∅
  = (Response 200 (JsonObject (StudentRead.model_dump (read_of_create adebola_create))),
     {["21cg029882" := row_of_create adebola_create]})
  ∧ ∃ objs,
      better_app.GET_students {["21cg029882" := row_of_create adebola_create]}
      = (Response 200 (JsonArray objs), {["21cg029882" := row_of_create adebola_create]})
      ∧ StudentRead.model_dump (read_of_create adebola_create) ∈ objs
      ∧ length objs = S (size (∅ : gmap string Row.t)).
Proof.
  split; [by vm_compute|].
  apply (proj1 (listing_follows_writes ∅ "21cg029882") adebola_json).
  by vm_compute.
Defined.

Lemma POST_answers_422_exactly_on_a_misfit_witness :
  (better_app.POST_student
     (<["matric_number" := JStr "21cg029882"]> {["first_name" := JStr "Adebola"]})
     one_student).1 = RequestValidationError
  ∧ (better_app.POST_student
       (<["matric_number" := JStr "21cg029882"]> {["first_name" := JStr "Adebola"]})
       one_student).2 = one_student.
Proof.
  split; [reflexivity|].
  apply (proj2 (POST_answers_422_exactly_on_a_misfit one_student
                  (<["matric_number" := JStr "21cg029882"]>
                     {["first_name" := JStr "Adebola"]}))).
  reflexivity.
Defined.

Lemma PATCH_answers_422_exactly_on_a_misfit_witness :
  (better_app.PATCH_student "21cg029883" {["email" := JNum 7]} one_student).1
  = RequestValidationError
  ∧ (better_app.PATCH_student "21cg029883" {["email" := JNum 7]} one_student).2
    = one_student.
Proof.
  split; [reflexivity|].
  apply (proj2 (PATCH_answers_422_exactly_on_a_misfit one_student "21cg029883"
                  {["email" := JNum 7]})).
  reflexivity.
Defined.
